(** * fast_align_audio: the offset search and the alignment pipeline

    A shallow embedding of [fast_align_audio/alignment.py].

    What the module takes from outside is kept as a parameter:
    - the values of the samples and the sample [zero] that [np.pad] writes;
    - [pearson x y], the entry [[1, 0]] of [np.corrcoef([x, y])] for two rows
      of the same length, and [score_leb], the order [np.argmax] scans with
      (the order of the floats with NaN placed above every number, which is
      what makes [np.argmax] return the first NaN when there is one);
    - [fast_find_alignment], the native routine of [_fast_align_audio]; the
      call is taken to return: the refusal by cffi of an argument outside
      its C type (OverflowError) is not modelled, and what is said of
      [align] below is said of calls whose search has returned;
    - [py_repr], Python's [repr] on strings.

    Python exceptions are values of [exn]; a function that may raise returns
    a [result]. *)

From Stdlib Require Import ZArith QArith List String Bool Lia.
Import ListNotations.
Open Scope string_scope.
Open Scope list_scope.
Open Scope Z_scope.

(** ** Exceptions and results *)

(** [NumpyError] stands for an exception raised inside numpy (its message is
    not modelled); the two others are raised by the module itself. *)
Inductive exn : Type :=
| AssertionError (msg : string)
| ValueError (msg : string)
| NumpyError.

Inductive result (A : Type) : Type :=
| Ok (a : A)
| Err (e : exn).

Arguments Ok {A} a.
Arguments Err {A} e.

Definition bind {A B : Type} (r : result A) (k : A -> result B) : result B :=
  match r with
  | Ok a => k a
  | Err e => Err e
  end.

Notation "x <- c ;; k" := (bind c (fun x => k))
  (at level 61, c at next level, right associativity).
Notation "' pat <- c ;; k" := (bind c (fun x => match x with pat => k end))
  (at level 61, pat pattern, c at next level, right associativity).

(** ** Python sequences: [len], [range] and slices *)

Definition len {A : Type} (l : list A) : Z := Z.of_nat (List.length l).

(** [range(lo, hi)]. *)
Definition py_range (lo hi : Z) : list Z :=
  map (fun i => lo + Z.of_nat i) (seq 0 (Z.to_nat (hi - lo))).

(** A slice bound as Python adjusts it: a negative bound counts from the end,
    and the result is clamped to [[0, n]]. *)
Definition adjust_index (n i : Z) : Z :=
  if i <? 0 then Z.max 0 (i + n) else Z.min i n.

(** [stride_from k step l] keeps the element after [k] others, then every
    [step]-th one. *)
Fixpoint stride_from {A : Type} (k step : nat) (l : list A) : list A :=
  match l with
  | [] => []
  | x :: r =>
      match k with
      | O => x :: stride_from (Nat.pred step) step r
      | S k' => stride_from k' step r
      end
  end.

(** [l[start:stop:step]] for a step of at least 1 ([None] is an omitted
    bound). *)
Definition py_slice {A : Type} (start stop : option Z) (step : nat)
    (l : list A) : list A :=
  let n := len l in
  let lo := match start with None => 0 | Some i => adjust_index n i end in
  let hi := match stop with None => n | Some i => adjust_index n i end in
  stride_from 0 step (firstn (Z.to_nat (hi - lo)) (skipn (Z.to_nat lo) l)).

(** ** One-dimensional numpy arrays *)

Inductive Dtype : Type :=
| float16 | float32 | float64 | int16 | int32 | int64.

Definition dtype_eqb (d e : Dtype) : bool :=
  match d, e with
  | float16, float16 | float32, float32 | float64, float64
  | int16, int16 | int32, int32 | int64, int64 => true
  | _, _ => false
  end.

(** A one-dimensional array (or view): its element type, its stride counted
    in elements, and the elements in order. *)
Record ndarray (A : Type) : Type := mk_ndarray {
  dtype : Dtype;
  stride : Z;
  data : list A
}.

Arguments mk_ndarray {A} dtype stride data.
Arguments dtype {A} n.
Arguments stride {A} n.
Arguments data {A} n.

(** [a.flags["C_CONTIGUOUS"]]: an array of at most one element is contiguous
    whatever its stride. *)
Definition c_contiguous {A : Type} (a : ndarray A) : bool :=
  (len (data a) <=? 1) || (stride a =? 1).

(** [a[start:stop]], a view on [a]. *)
Definition nd_slice {A : Type} (a : ndarray A) (start stop : option Z)
    : ndarray A :=
  mk_ndarray (dtype a) (stride a) (py_slice start stop 1 (data a)).

(** ** Strings *)

(** [needle in haystack]. *)
Fixpoint mentions (haystack needle : string) : bool :=
  String.prefix needle haystack
  || match haystack with
     | EmptyString => false
     | String _ rest => mentions rest needle
     end.

(** ** An instance of the parameters

    Integer samples. The score of two rows is the square of their
    correlation coefficient with its sign, computed without rounding, or
    [None] (NaN) when one of the rows has no variance; it orders the lags as
    the coefficient itself does. [nan_top_leb] is the order of [np.argmax]: NaN
    above every number. The native routine is replaced by a stand-in that
    answers the last lag of its range, and [repr] by quotes. The examples and
    the closed instances of the theorems below are run on it. *)

Module Demo.

Definition sum (l : list Z) : Z := fold_right Z.add 0 l.

(** From the number of samples and the sums of [x], [y], [x * y], [x * x]
    and [y * y]. *)
Definition signed_square (n sx sy sxy sxx syy : Z) : option Q :=
  let cov := n * sxy - sx * sy in
  let vx := n * sxx - sx * sx in
  let vy := n * syy - sy * sy in
  if (vx =? 0) || (vy =? 0) then None
  else Some (Qmake (Z.sgn cov * (cov * cov)) (Z.to_pos (vx * vy))).

Definition pearson (x y : list Z) : option Q :=
  let rows := combine x y in
  signed_square (Z.of_nat (List.length rows))
    (sum (map fst rows)) (sum (map snd rows))
    (sum (map (fun p => fst p * snd p) rows))
    (sum (map (fun p => fst p * fst p) rows))
    (sum (map (fun p => snd p * snd p) rows)).

Definition nan_top_leb (x best : option Q) : bool :=
  match best with
  | None => true
  | Some b =>
      match x with
      | None => false
      | Some a => Qle_bool a b
      end
  end.

Definition last_lag (delayed_len : Z) (delayed : list Z)
    (reference_len : Z) (reference : list Z)
    (max_offset_samples lookahead_samples : Z) : Z :=
  max_offset_samples - 1.

Definition quoted (s : string) : string :=
  String.append "'" (String.append s "'").

(** A ramp and the same ramp behind two zeros. *)
Definition ramp : ndarray Z := mk_ndarray float32 1 [1; 2; 3; 4; 5; 6; 7; 8].
Definition late_ramp : ndarray Z :=
  mk_ndarray float32 1 [0; 0; 1; 2; 3; 4; 5; 6].

(** Sixteen digits and the same digits one sample later. *)
Definition digits : ndarray Z :=
  mk_ndarray float32 1 [3; 1; 4; 1; 5; 9; 2; 6; 5; 3; 5; 8; 9; 7; 9; 3].
Definition late_digits : ndarray Z :=
  mk_ndarray float32 1 [0; 3; 1; 4; 1; 5; 9; 2; 6; 5; 3; 5; 8; 9; 7; 9].

(** Two signals that agree at the front and differ in their second half. *)
Definition front : ndarray Z := mk_ndarray float32 1 [5; 0; 0; 0; 1; 1; 1; 1].
Definition front' : ndarray Z :=
  mk_ndarray float32 1 [5; 0; 0; 0; 0; 1; 1; 1].

(** The ramp as float64, and every second sample of a float32 buffer. *)
Definition ramp64 : ndarray Z := mk_ndarray float64 1 [1; 2; 3; 4; 5; 6; 7; 8].
Definition strided_ramp : ndarray Z :=
  mk_ndarray float32 2 [1; 2; 3; 4; 5; 6; 7; 8].

End Demo.

(** ** The module *)

Section Alignment.

Variable sample : Type.
Variable zero : sample.
Variable score : Type.
Variable score_leb : score -> score -> bool.
Variable pearson : list sample -> list sample -> score.
Variable fast_find_alignment :
  Z -> list sample -> Z -> list sample -> Z -> Z -> Z.
Variable py_repr : string -> string.

(** *** numpy *)

(** [np.pad(a, (before, after))]: a fresh contiguous array, zeros on both
    sides; a negative width is refused. *)
Definition np_pad (a : ndarray sample) (before after : Z)
    : result (ndarray sample) :=
  if (before <? 0) || (after <? 0) then Err NumpyError
  else Ok (mk_ndarray (dtype a) 1
             (repeat zero (Z.to_nat before) ++ data a
              ++ repeat zero (Z.to_nat after))).

(** [np.corrcoef([x, y])[1, 0]]: two rows of different lengths do not make
    a two-dimensional array. *)
Definition np_corrcoef (x y : list sample) : result score :=
  if Nat.eqb (List.length x) (List.length y) then Ok (pearson x y)
  else Err NumpyError.

(** The scan of [np.argmax]: [best] is the largest value so far, found at
    [besti]; a later value replaces it only when it is not [<=] it. On the
    floats numpy tests [!(x <= best)] and stops at the first NaN, which is
    this scan with [score_leb x best] read as: [best] is NaN, or
    [x <= best]. *)
Fixpoint argmax_from (best : score) (besti i : nat) (l : list score) : nat :=
  match l with
  | [] => besti
  | x :: r =>
      if score_leb x best then argmax_from best besti (S i) r
      else argmax_from x i (S i) r
  end.

(** [np.argmax(l)]; an empty sequence is refused. *)
Definition np_argmax (l : list score) : result nat :=
  match l with
  | [] => Err NumpyError
  | x :: r => Ok (argmax_from x 0 1 r)
  end.

(** *** [fast_autocorr] *)

(** The two rows [fast_autocorr] hands to [np.corrcoef] for the lag [t]. *)
Definition autocorr_rows (original delayed : list sample) (t : Z)
    : list sample * list sample :=
  if t =? 0 then
    (py_slice None None 4 original, py_slice None None 4 delayed)
  else if t <? 0 then
    (py_slice (Some (- t)) None 4 original, py_slice None (Some t) 4 delayed)
  else
    (py_slice None (Some (- t)) 4 original, py_slice (Some t) None 4 delayed).

Definition fast_autocorr (original delayed : list sample) (t : Z)
    : result score :=
  if t =? 0 then
    np_corrcoef (py_slice None None 4 original) (py_slice None None 4 delayed)
  else if t <? 0 then
    np_corrcoef (py_slice (Some (- t)) None 4 original)
                (py_slice None (Some t) 4 delayed)
  else
    np_corrcoef (py_slice None (Some (- t)) 4 original)
                (py_slice (Some t) None 4 delayed).

(** *** [find_best_alignment_offset_with_corrcoef] *)

(** The signals the lags are scored on: the centered window when
    [lookahead_samples] is given and the first signal is longer than it. *)
Definition signal_slices (original_signal delayed_signal : list sample)
    (lookahead_samples : option Z) : list sample * list sample :=
  match lookahead_samples with
  | Some la =>
      if len original_signal >? la then
        let middle_of_signal_index := len original_signal / 2 in
        (py_slice (Some middle_of_signal_index)
                  (Some (middle_of_signal_index + la)) 1 original_signal,
         py_slice (Some middle_of_signal_index)
                  (Some (middle_of_signal_index + la)) 1 delayed_signal)
      else (original_signal, delayed_signal)
  | None => (original_signal, delayed_signal)
  end.

(** The loop that fills [coefs], one lag after the other; the first lag whose
    score raises ends it. *)
Fixpoint collect_coefs (original delayed : list sample) (lags : list Z)
    : result (list score) :=
  match lags with
  | [] => Ok []
  | lag :: rest =>
      correlation_coef <- fast_autocorr original delayed lag ;;
      coefs <- collect_coefs original delayed rest ;;
      Ok (correlation_coef :: coefs)
  end.

Definition find_best_alignment_offset_with_corrcoef
    (original_signal delayed_signal : list sample)
    (min_offset_samples max_offset_samples : Z)
    (lookahead_samples : option Z) : result Z :=
  let '(original_signal_slice, delayed_signal_slice) :=
    signal_slices original_signal delayed_signal lookahead_samples in
  coefs <- collect_coefs original_signal_slice delayed_signal_slice
             (py_range min_offset_samples max_offset_samples) ;;
  max_coef_index <- np_argmax coefs ;;
  Ok (Z.of_nat max_coef_index + min_offset_samples).

(** *** [find_best_alignment_offset] *)

Definition find_best_alignment_offset
    (reference_signal delayed_signal : ndarray sample)
    (max_offset_samples : Z) (lookahead_samples : option Z)
    (method : string) : result Z :=
  if negb (dtype_eqb (dtype reference_signal) float32
           && dtype_eqb (dtype delayed_signal) float32) then
    Err (AssertionError "Arrays must be float32")
  else if String.eqb method "mse" then
    if negb (c_contiguous reference_signal && c_contiguous delayed_signal)
    then Err (AssertionError "Arrays must be C-contiguous")
    else
      let lookahead_samples :=
        match lookahead_samples with
        | None => Z.max (len (data reference_signal))
                        (len (data delayed_signal))
        | Some la => la
        end in
      Ok (fast_find_alignment
            (len (data delayed_signal)) (data delayed_signal)
            (len (data reference_signal)) (data reference_signal)
            max_offset_samples lookahead_samples)
  else if String.eqb method "corr" then
    find_best_alignment_offset_with_corrcoef
      (data reference_signal) (data delayed_signal)
      (- max_offset_samples) max_offset_samples None
  else Err (ValueError "Unknown method").

(** *** [_align], [_fix] and [align] *)

Definition _align (x y : ndarray sample) (offset : Z) (align_mode : string)
    : result (ndarray sample * ndarray sample) :=
  if String.eqb align_mode "crop" then
    Ok (nd_slice x (Some offset) None, y)
  else if String.eqb align_mode "pad" then
    y' <- np_pad y offset 0 ;;
    Ok (x, y')
  else Ok (x, y).

Definition _fix (x y : ndarray sample) (fix_mode : option string)
    : result (ndarray sample * ndarray sample) :=
  match fix_mode with
  | None => Ok (x, y)
  | Some mode =>
      if String.eqb mode "shortest" then
        let min_len := Z.min (len (data x)) (len (data y)) in
        Ok (nd_slice x None (Some min_len), nd_slice y None (Some min_len))
      else if String.eqb mode "longest" then
        let max_len := Z.max (len (data x)) (len (data y)) in
        x' <- np_pad x 0 (max_len - len (data x)) ;;
        y' <- np_pad y 0 (max_len - len (data y)) ;;
        Ok (x', y')
      else
        Err (ValueError
               (String.append "fix_length="
                  (String.append (py_repr mode) " not understood")))
  end.

(** [align] searches with the default method of
    [find_best_alignment_offset]. *)
Definition align (a b : ndarray sample) (max_offset : Z)
    (max_lookahead : option Z) (align_mode : string)
    (fix_length : option string)
    : result (ndarray sample * ndarray sample) :=
  offset <- find_best_alignment_offset a b max_offset max_lookahead "mse" ;;
  '(a, b) <- (if 0 <? offset then _align a b offset align_mode
              else '(b, a) <- _align b a (- offset) align_mode ;;
                   Ok (a, b)) ;;
  _fix a b fix_length.

(** *** What the statements below speak of *)

(** The rows of a lag can be correlated when they have one length. *)
Definition rows_match (original delayed : list sample) (t : Z) : Prop :=
  List.length (fst (autocorr_rows original delayed t))
  = List.length (snd (autocorr_rows original delayed t)).

(** The score of a lag whose rows match. *)
Definition lag_score (original delayed : list sample) (t : Z) : score :=
  pearson (fst (autocorr_rows original delayed t))
          (snd (autocorr_rows original delayed t)).

(** The lookahead the native routine receives. *)
Definition native_lookahead (reference_signal delayed_signal : ndarray sample)
    (lookahead_samples : option Z) : Z :=
  match lookahead_samples with
  | None => Z.max (len (data reference_signal)) (len (data delayed_signal))
  | Some la => la
  end.

(** Modelled from the spec: the native routine [fast_find_alignment] of
    [_fast_align_audio] is not part of the sources. The spec bounds its
    search range symmetrically by [max_offset_samples] and says that the
    returned offset always lies within the half-open search range. *)
Definition native_in_range : Prop :=
  forall (n1 : Z) (x : list sample) (n2 : Z) (y : list sample) (mo la : Z),
    0 < mo -> - mo <= fast_find_alignment n1 x n2 y mo la < mo.

(** The array [a] seen through another stride. *)
Definition with_stride (a : ndarray sample) (s : Z) : ndarray sample :=
  mk_ndarray (dtype a) s (data a).

(** ** Facts about slices *)

Lemma stride_from_one {A : Type} (l : list A) : stride_from 0 1 l = l.
Proof.
  induction l as [|x r IH]; simpl; [reflexivity | now rewrite IH].
Qed.

Lemma stride_from_length {A B : Type} (step : nat) (l : list A) :
  forall (k : nat) (l' : list B),
    List.length l = List.length l' ->
    List.length (stride_from k step l) = List.length (stride_from k step l').
Proof.
  induction l as [|x r IH]; intros k [|y r'] H; simpl in *;
    try discriminate; [reflexivity|].
  injection H as H.
  destruct k; simpl; auto.
Qed.

(** A slice without a step from a non-negative start drops the first
    elements. *)
Lemma py_slice_from {A : Type} (k : Z) (l : list A) :
  0 <= k -> py_slice (Some k) None 1 l = skipn (Z.to_nat k) l.
Proof.
  intros Hk. unfold py_slice, adjust_index, len.
  rewrite stride_from_one.
  destruct (k <? 0) eqn:E; [apply Z.ltb_lt in E; lia|].
  destruct (Z.le_gt_cases k (Z.of_nat (List.length l))) as [Hle|Hgt].
  - rewrite Z.min_l by lia.
    apply firstn_all2. rewrite length_skipn. lia.
  - rewrite Z.min_r by lia.
    rewrite Z2Nat.inj_sub, !Nat2Z.id by lia. rewrite Nat.sub_diag. simpl.
    symmetry. apply skipn_all2. lia.
Qed.

(** A slice without a step up to a bound within the length keeps the first
    elements. *)
Lemma py_slice_upto {A : Type} (m : Z) (l : list A) :
  0 <= m <= len l -> py_slice None (Some m) 1 l = firstn (Z.to_nat m) l.
Proof.
  intros Hm. unfold py_slice, adjust_index. unfold len in *.
  rewrite stride_from_one.
  destruct (m <? 0) eqn:E; [apply Z.ltb_lt in E; lia|].
  rewrite Z.min_l by lia. rewrite Z.sub_0_r. reflexivity.
Qed.

(** The length of a slice is a function of the length of the sequence. *)
Lemma py_slice_length {A B : Type} (start stop : option Z) (step : nat)
    (l : list A) (l' : list B) :
  List.length l = List.length l' ->
  List.length (py_slice start stop step l)
  = List.length (py_slice start stop step l').
Proof.
  intros H. unfold py_slice, len. rewrite H.
  apply stride_from_length.
  rewrite !length_firstn, !length_skipn, H. reflexivity.
Qed.

(** ** Facts about the scores *)

Lemma fast_autocorr_rows (original delayed : list sample) (t : Z) :
  fast_autocorr original delayed t
  = np_corrcoef (fst (autocorr_rows original delayed t))
                (snd (autocorr_rows original delayed t)).
Proof.
  unfold fast_autocorr, autocorr_rows.
  destruct (t =? 0); [reflexivity|]. destruct (t <? 0); reflexivity.
Qed.

Lemma fast_autocorr_ok (original delayed : list sample) (t : Z) :
  rows_match original delayed t ->
  fast_autocorr original delayed t = Ok (lag_score original delayed t).
Proof.
  intros H. rewrite fast_autocorr_rows. unfold np_corrcoef, lag_score.
  unfold rows_match in H. rewrite H, Nat.eqb_refl. reflexivity.
Qed.

Lemma fast_autocorr_raises (original delayed : list sample) (t : Z) :
  ~ rows_match original delayed t ->
  fast_autocorr original delayed t = Err NumpyError.
Proof.
  intros H. rewrite fast_autocorr_rows. unfold np_corrcoef.
  destruct (Nat.eqb_spec
              (List.length (fst (autocorr_rows original delayed t)))
              (List.length (snd (autocorr_rows original delayed t))))
    as [E|E]; [contradiction | reflexivity].
Qed.

(** Signals of one length give rows of one length at every lag. *)
Lemma rows_match_equal_length (original delayed : list sample) (t : Z) :
  List.length original = List.length delayed ->
  rows_match original delayed t.
Proof.
  intros H. unfold rows_match, autocorr_rows.
  destruct (t =? 0) eqn:E0; simpl.
  - now apply py_slice_length.
  - apply Z.eqb_neq in E0.
    destruct (t <? 0) eqn:E1; simpl;
      [apply Z.ltb_lt in E1 | apply Z.ltb_ge in E1];
      unfold py_slice, adjust_index, len; rewrite H;
      apply stride_from_length;
      rewrite !length_firstn, !length_skipn, H;
      repeat match goal with
             | |- context [?a <? ?b] =>
                 destruct (Z.ltb_spec a b)
             end; lia.
Qed.

(** The window keeps signals of one length at one length. *)
Lemma signal_slices_equal_length
    (original delayed : list sample) (la : option Z) :
  List.length original = List.length delayed ->
  List.length (fst (signal_slices original delayed la))
  = List.length (snd (signal_slices original delayed la)).
Proof.
  intros H. unfold signal_slices.
  destruct la as [la|]; [|exact H].
  destruct (len original >? la); [|exact H].
  simpl. now apply py_slice_length.
Qed.

(** ** Facts about [range], the loop and [np.argmax] *)

Lemma py_range_length (lo hi : Z) :
  List.length (py_range lo hi) = Z.to_nat (hi - lo).
Proof.
  unfold py_range. now rewrite length_map, length_seq.
Qed.

Lemma py_range_In (lo hi t : Z) : In t (py_range lo hi) <-> lo <= t < hi.
Proof.
  unfold py_range. rewrite in_map_iff. split.
  - intros [i [<- Hi]]. apply in_seq in Hi. lia.
  - intros Ht. exists (Z.to_nat (t - lo)). split; [lia|].
    apply in_seq. lia.
Qed.

Lemma py_range_nth (lo hi : Z) (i : nat) :
  (i < Z.to_nat (hi - lo))%nat ->
  nth_error (py_range lo hi) i = Some (lo + Z.of_nat i).
Proof.
  intros Hi. unfold py_range.
  rewrite nth_error_map, nth_error_seq.
  destruct (Nat.ltb_spec i (Z.to_nat (hi - lo))) as [_|Hge]; [|lia].
  reflexivity.
Qed.

Lemma collect_coefs_ok (original delayed : list sample) (lags : list Z) :
  (forall t, In t lags -> rows_match original delayed t) ->
  collect_coefs original delayed lags
  = Ok (map (lag_score original delayed) lags).
Proof.
  induction lags as [|lag rest IH]; intros H; simpl; [reflexivity|].
  rewrite fast_autocorr_ok by (apply H; now left). simpl.
  rewrite IH by (intros t Ht; apply H; now right). reflexivity.
Qed.

Lemma collect_coefs_length (original delayed : list sample) :
  forall (lags : list Z) (coefs : list score),
    collect_coefs original delayed lags = Ok coefs ->
    List.length coefs = List.length lags.
Proof.
  induction lags as [|lag rest IH]; intros coefs H; simpl in H.
  - injection H as <-. reflexivity.
  - destruct (fast_autocorr original delayed lag); [|discriminate].
    simpl in H.
    destruct (collect_coefs original delayed rest) as [cs|];
      [|discriminate].
    simpl in H. injection H as <-. simpl. f_equal. now apply IH.
Qed.

Lemma argmax_from_bound (l : list score) :
  forall (best : score) (besti i : nat),
    (besti < i)%nat ->
    (argmax_from best besti i l < i + List.length l)%nat.
Proof.
  induction l as [|x r IH]; intros best besti i H; simpl; [lia|].
  destruct (score_leb x best).
  - specialize (IH best besti (S i)). lia.
  - specialize (IH x i (S i)). lia.
Qed.

Lemma np_argmax_bound (l : list score) (k : nat) :
  np_argmax l = Ok k -> (k < List.length l)%nat.
Proof.
  destruct l as [|x r]; simpl; [discriminate|].
  intros H. injection H as <-.
  pose proof (argmax_from_bound r x 0 1). lia.
Qed.

(** Whatever the scores, an offset the correlation search returns is one of
    the lags it was given. *)
Lemma corrcoef_offset_in_range
    (original delayed : list sample) (lo hi : Z) (la : option Z) (k : Z) :
  find_best_alignment_offset_with_corrcoef original delayed lo hi la = Ok k ->
  lo <= k < hi.
Proof.
  unfold find_best_alignment_offset_with_corrcoef.
  destruct (signal_slices original delayed la) as [o d].
  destruct (collect_coefs o d (py_range lo hi)) as [coefs|] eqn:Hc;
    [|discriminate].
  simpl.
  destruct (np_argmax coefs) as [i|] eqn:Hi; [|discriminate].
  simpl. intros H. injection H as <-.
  apply np_argmax_bound in Hi. apply collect_coefs_length in Hc.
  rewrite py_range_length in Hc. lia.
Qed.

(** ** The search under an order on the scores *)

Section Ordered.

Hypothesis score_leb_total :
  forall x y, score_leb x y = true \/ score_leb y x = true.
Hypothesis score_leb_trans :
  forall x y z,
    score_leb x y = true -> score_leb y z = true -> score_leb x z = true.

Lemma nth_error_snoc (pre : list score) (x y : score) (j : nat) :
  nth_error (pre ++ [x]) j = Some y ->
  nth_error pre j = Some y \/ (j = List.length pre /\ y = x).
Proof.
  intros H. destruct (Nat.lt_ge_cases j (List.length pre)) as [Hlt|Hge].
  - left. now rewrite nth_error_app1 in H.
  - right. rewrite nth_error_app2 in H by exact Hge.
    destruct (j - List.length pre)%nat as [|n] eqn:E; simpl in H.
    + injection H as <-. split; [lia | reflexivity].
    + destruct n; discriminate.
Qed.

(** The invariant of the scan: [best], at [besti], is at least every value
    seen and strictly above every value before [besti]. *)
Lemma argmax_from_spec (l : list score) :
  forall (pre : list score) (best : score) (besti : nat),
    nth_error pre besti = Some best ->
    (forall j x, nth_error pre j = Some x -> score_leb x best = true) ->
    (forall j x, (j < besti)%nat -> nth_error pre j = Some x ->
                 score_leb best x = false) ->
    exists top,
      nth_error (pre ++ l) (argmax_from best besti (List.length pre) l)
      = Some top
      /\ (forall j x, nth_error (pre ++ l) j = Some x ->
                      score_leb x top = true)
      /\ (forall j x,
             (j < argmax_from best besti (List.length pre) l)%nat ->
             nth_error (pre ++ l) j = Some x -> score_leb top x = false).
Proof.
  induction l as [|x r IH]; intros pre best besti Hb Hmax Hfirst.
  - simpl. rewrite app_nil_r. exists best. auto.
  - assert (Hlt : (besti < List.length pre)%nat).
    { apply nth_error_Some. congruence. }
    simpl. replace (pre ++ x :: r) with ((pre ++ [x]) ++ r)
      by (rewrite <- app_assoc; reflexivity).
    replace (S (List.length pre)) with (List.length (pre ++ [x]))
      by (rewrite length_app; simpl; lia).
    destruct (score_leb x best) eqn:E.
    + apply IH.
      * now rewrite nth_error_app1.
      * intros j y Hj. apply nth_error_snoc in Hj as [Hj|[_ ->]]; eauto.
      * intros j y Hjb Hj.
        apply nth_error_snoc in Hj as [Hj|[Hj _]]; [eauto | lia].
    + assert (Hbx : score_leb best x = true).
      { destruct (score_leb_total best x) as [H|H]; congruence. }
      apply IH.
      * rewrite nth_error_app2 by lia. now rewrite Nat.sub_diag.
      * intros j y Hj. apply nth_error_snoc in Hj as [Hj|[_ ->]].
        -- eapply score_leb_trans; [eapply Hmax; eassumption | exact Hbx].
        -- destruct (score_leb_total x x); assumption.
      * intros j y Hjb Hj.
        apply nth_error_snoc in Hj as [Hj|[Hj _]]; [|lia].
        destruct (score_leb x y) eqn:Exy; [|reflexivity].
        assert (score_leb x best = true)
          by (eapply score_leb_trans; [exact Exy | eapply Hmax; eassumption]).
        congruence.
Qed.

(** [np.argmax] returns the first index of a largest value. *)
Lemma np_argmax_first_max (l : list score) :
  l <> [] ->
  exists k top,
    np_argmax l = Ok k /\ nth_error l k = Some top
    /\ (forall j x, nth_error l j = Some x -> score_leb x top = true)
    /\ (forall j x, (j < k)%nat -> nth_error l j = Some x ->
                    score_leb top x = false).
Proof.
  destruct l as [|x r]; [congruence|]. intros _.
  destruct (argmax_from_spec r [x] x 0) as [top [H1 [H2 H3]]].
  - reflexivity.
  - intros [|[|j]] y Hj; simpl in Hj; try discriminate.
    injection Hj as <-. destruct (score_leb_total x x); assumption.
  - intros j y Hj. lia.
  - simpl in *. exists (argmax_from x 0 1 r), top. auto.
Qed.

Lemma scores_nth (original delayed : list sample) (lo hi t : Z) :
  lo <= t < hi ->
  nth_error (map (lag_score original delayed) (py_range lo hi))
            (Z.to_nat (t - lo))
  = Some (lag_score original delayed t).
Proof.
  intros Ht. rewrite nth_error_map, py_range_nth by lia.
  simpl. f_equal. f_equal. lia.
Qed.

(** The search on a window is the search without a window on the slices. *)
Lemma corrcoef_search_on_slices
    (original_signal delayed_signal : list sample) (lo hi : Z)
    (la : option Z) :
  find_best_alignment_offset_with_corrcoef
    original_signal delayed_signal lo hi la
  = find_best_alignment_offset_with_corrcoef
      (fst (signal_slices original_signal delayed_signal la))
      (snd (signal_slices original_signal delayed_signal la)) lo hi None.
Proof.
  unfold find_best_alignment_offset_with_corrcoef.
  destruct (signal_slices original_signal delayed_signal la) as [o d].
  reflexivity.
Qed.

(** Without a window: the lag returned is the first of the best ones. *)
Lemma corrcoef_search_first_best (o d : list sample) (lo hi : Z) :
  lo < hi ->
  (forall t, lo <= t < hi -> rows_match o d t) ->
  exists k : Z,
    find_best_alignment_offset_with_corrcoef o d lo hi None = Ok k
    /\ lo <= k < hi
    /\ (forall t, lo <= t < hi ->
          score_leb (lag_score o d t) (lag_score o d k) = true)
    /\ (forall t, lo <= t < k ->
          score_leb (lag_score o d k) (lag_score o d t) = false).
Proof.
  intros Hne Hrows.
  assert (Hc : collect_coefs o d (py_range lo hi)
               = Ok (map (lag_score o d) (py_range lo hi))).
  { apply collect_coefs_ok. intros t Ht. apply Hrows. now apply py_range_In. }
  destruct (np_argmax_first_max (map (lag_score o d) (py_range lo hi)))
    as [i [top [Hi [Htop [Hmax Hfirst]]]]].
  { intros E. apply (f_equal (@List.length score)) in E.
    rewrite length_map, py_range_length in E. simpl in E. lia. }
  assert (Hib : (i < Z.to_nat (hi - lo))%nat).
  { apply np_argmax_bound in Hi.
    now rewrite length_map, py_range_length in Hi. }
  assert (Ek : top = lag_score o d (Z.of_nat i + lo)).
  { rewrite nth_error_map, py_range_nth in Htop by lia. simpl in Htop.
    injection Htop as <-. f_equal. lia. }
  exists (Z.of_nat i + lo). split.
  { unfold find_best_alignment_offset_with_corrcoef. simpl.
    rewrite Hc. simpl. rewrite Hi. reflexivity. }
  split; [lia|]. rewrite <- Ek. split.
  - intros t Ht. eapply Hmax. apply scores_nth. exact Ht.
  - intros t Ht. apply (Hfirst (Z.to_nat (t - lo))); [lia|].
    apply scores_nth. lia.
Qed.

(** A lag that scores strictly above every other lag of the range is the
    one returned. *)
Lemma corrcoef_search_unique_best (o d : list sample) (lo hi k : Z) :
  lo <= k < hi ->
  (forall t, lo <= t < hi -> rows_match o d t) ->
  (forall t, lo <= t < hi -> t <> k ->
     score_leb (lag_score o d k) (lag_score o d t) = false) ->
  find_best_alignment_offset_with_corrcoef o d lo hi None = Ok k.
Proof.
  intros Hk Hrows Hbest.
  destruct (corrcoef_search_first_best o d lo hi) as [k' [Hf [Hk' [Hmax _]]]];
    [lia | exact Hrows |].
  destruct (Z.eq_dec k' k) as [->|Hne]; [exact Hf|].
  specialize (Hmax k Hk). rewrite (Hbest k' Hk' Hne) in Hmax. discriminate.
Qed.

(** For any total preorder on the scores: on a non-empty range of lags
    whose rows can all be correlated, the correlation search scores every
    lag of the range, in increasing order (the [i]-th score collected is the
    score of the lag [lo + i]), and returns the lowest lag whose score is
    the largest: no lag of the range scores above it, and every lag before
    it scores strictly below it. *)
Theorem corrcoef_search_returns_first_best_lag
    (original_signal delayed_signal : list sample) (lo hi : Z)
    (la : option Z) :
  let o := fst (signal_slices original_signal delayed_signal la) in
  let d := snd (signal_slices original_signal delayed_signal la) in
  lo < hi ->
  (forall t, lo <= t < hi -> rows_match o d t) ->
  exists (coefs : list score) (k : Z),
    collect_coefs o d (py_range lo hi) = Ok coefs
    /\ (forall i, 0 <= i < hi - lo ->
          nth_error coefs (Z.to_nat i) = Some (lag_score o d (lo + i)))
    /\ find_best_alignment_offset_with_corrcoef
         original_signal delayed_signal lo hi la = Ok k
    /\ lo <= k < hi
    /\ (forall t, lo <= t < hi ->
          score_leb (lag_score o d t) (lag_score o d k) = true)
    /\ (forall t, lo <= t < k ->
          score_leb (lag_score o d k) (lag_score o d t) = false).
Proof.
  intros o d Hne Hrows.
  destruct (corrcoef_search_first_best o d lo hi Hne Hrows)
    as [k [Hf [Hk [Hmax Hfirst]]]].
  exists (map (lag_score o d) (py_range lo hi)), k.
  split.
  { apply collect_coefs_ok. intros t Ht. apply Hrows. now apply py_range_In. }
  split.
  { intros j Hj. replace (Z.to_nat j) with (Z.to_nat ((lo + j) - lo)) by lia.
    apply scores_nth. lia. }
  split; [|auto].
  rewrite corrcoef_search_on_slices. exact Hf.
Qed.

(** ** Exchanging the two signals *)

(** The rows scored for [(b, a)] at the lag [- t] are the rows scored for
    [(a, b)] at the lag [t], exchanged. *)
Lemma autocorr_rows_swap (a b : list sample) (t : Z) :
  autocorr_rows b a (- t)
  = (snd (autocorr_rows a b t), fst (autocorr_rows a b t)).
Proof.
  unfold autocorr_rows.
  destruct (Z.eqb_spec t 0) as [->|Hne]; [reflexivity|].
  destruct (Z.eqb_spec (- t) 0) as [E|_]; [lia|].
  destruct (Z.ltb_spec t 0), (Z.ltb_spec (- t) 0); try lia;
    rewrite ?Z.opp_involutive; reflexivity.
Qed.

Lemma rows_match_swap (a b : list sample) (t : Z) :
  rows_match a b (- t) -> rows_match b a t.
Proof.
  unfold rows_match. intros H.
  rewrite <- (Z.opp_involutive t), autocorr_rows_swap. simpl.
  symmetry. exact H.
Qed.

Lemma corr_method (r d : ndarray sample) (m : Z) (la : option Z) :
  dtype r = float32 -> dtype d = float32 ->
  find_best_alignment_offset r d m la "corr"
  = find_best_alignment_offset_with_corrcoef (data r) (data d) (- m) m None.
Proof.
  intros Hr Hd. unfold find_best_alignment_offset. rewrite Hr, Hd.
  reflexivity.
Qed.

(** What the search returns, when it returns: the first best lag. *)
Lemma corrcoef_search_inv (o d : list sample) (lo hi k : Z) :
  (forall t, lo <= t < hi -> rows_match o d t) ->
  find_best_alignment_offset_with_corrcoef o d lo hi None = Ok k ->
  lo <= k < hi
  /\ (forall t, lo <= t < hi ->
        score_leb (lag_score o d t) (lag_score o d k) = true)
  /\ (forall t, lo <= t < k ->
        score_leb (lag_score o d k) (lag_score o d t) = false).
Proof.
  intros Hrows Hk.
  pose proof (corrcoef_offset_in_range _ _ _ _ _ _ Hk) as Hr.
  destruct (corrcoef_search_first_best o d lo hi) as [k' [Hk' H]];
    [lia | exact Hrows |].
  rewrite Hk in Hk'. injection Hk' as <-. exact H.
Qed.

End Ordered.

(** ** Facts about the public search, [np.pad] and strings *)

Lemma dtype_eqb_eq (d e : Dtype) : dtype_eqb d e = true <-> d = e.
Proof.
  destruct d, e; simpl; split; intros H; congruence.
Qed.

Lemma mse_method (r d : ndarray sample) (mo : Z) (la : option Z) :
  dtype r = float32 -> dtype d = float32 ->
  c_contiguous r = true -> c_contiguous d = true ->
  find_best_alignment_offset r d mo la "mse"
  = Ok (fast_find_alignment (len (data d)) (data d) (len (data r)) (data r)
          mo (native_lookahead r d la)).
Proof.
  intros Hr Hd Cr Cd. unfold find_best_alignment_offset.
  rewrite Hr, Hd, Cr, Cd. simpl. destruct la; reflexivity.
Qed.

Lemma mse_method_inv (r d : ndarray sample) (mo : Z) (la : option Z) (k : Z) :
  find_best_alignment_offset r d mo la "mse" = Ok k ->
  dtype r = float32 /\ dtype d = float32
  /\ c_contiguous r = true /\ c_contiguous d = true
  /\ k = fast_find_alignment (len (data d)) (data d)
           (len (data r)) (data r) mo (native_lookahead r d la).
Proof.
  unfold find_best_alignment_offset.
  destruct (dtype_eqb (dtype r) float32) eqn:Er; [|discriminate].
  destruct (dtype_eqb (dtype d) float32) eqn:Ed; [|discriminate].
  apply dtype_eqb_eq in Er, Ed. simpl.
  destruct (c_contiguous r); [|discriminate].
  destruct (c_contiguous d); [|discriminate].
  simpl. intros H. injection H as <-. destruct la; auto.
Qed.

Lemma np_pad_ok (a : ndarray sample) (before after : Z) :
  0 <= before -> 0 <= after ->
  np_pad a before after
  = Ok (mk_ndarray (dtype a) 1
          (repeat zero (Z.to_nat before) ++ data a
           ++ repeat zero (Z.to_nat after))).
Proof.
  intros Hb Ha. unfold np_pad.
  destruct (Z.ltb_spec before 0); [lia|].
  destruct (Z.ltb_spec after 0); [lia|]. reflexivity.
Qed.

Lemma nd_slice_from_zero (a : ndarray sample) :
  nd_slice a (Some 0) None = a.
Proof.
  unfold nd_slice. rewrite py_slice_from by lia. simpl. now destruct a.
Qed.

(** An [align_mode] that is neither ["crop"] nor ["pad"] changes nothing
    and raises nothing. *)
Lemma align_mode_unknown (x y : ndarray sample) (offset : Z) (mode : string) :
  mode <> "crop" -> mode <> "pad" -> _align x y offset mode = Ok (x, y).
Proof.
  intros Hc Hp. unfold _align.
  destruct (String.eqb_spec mode "crop"); [contradiction|].
  destruct (String.eqb_spec mode "pad"); [contradiction|]. reflexivity.
Qed.

Lemma prefix_append (s q : string) : String.prefix s (String.append s q) = true.
Proof.
  induction s as [|c s IH]; simpl; [now destruct q|].
  destruct (Ascii.ascii_dec c c); [exact IH | congruence].
Qed.

Lemma mentions_prefix (haystack needle : string) :
  String.prefix needle haystack = true -> mentions haystack needle = true.
Proof.
  intros H. destruct haystack; cbn [mentions]; rewrite H; reflexivity.
Qed.

Lemma mentions_middle (p s q : string) :
  mentions (String.append p (String.append s q)) s = true.
Proof.
  induction p as [|c p IH]; simpl.
  - apply mentions_prefix, prefix_append.
  - rewrite IH. apply orb_true_r.
Qed.

(** ** The claims on the pipeline *)

(** C2, as amended. An unrecognized [method] makes the offset search raise
    [ValueError("Unknown method")] on float32 arrays: a configuration
    error, whose message does not depend on the value. An unrecognized
    [fix_length] makes [_fix] raise a [ValueError] whose message contains
    the [repr] of the value, and [align] then returns no pair. *)
Theorem unknown_method_and_fix_length_are_refused
    (r d a b x y : ndarray sample) (mo : Z) (la : option Z)
    (method align_mode mode : string) :
  method <> "mse" -> method <> "corr" ->
  mode <> "shortest" -> mode <> "longest" ->
  dtype r = float32 -> dtype d = float32 ->
  find_best_alignment_offset r d mo la method
  = Err (ValueError "Unknown method")
  /\ _fix x y (Some mode)
     = Err (ValueError
              (String.append "fix_length="
                 (String.append (py_repr mode) " not understood")))
  /\ mentions (String.append "fix_length="
                 (String.append (py_repr mode) " not understood"))
              (py_repr mode) = true
  /\ exists e, align a b mo la align_mode (Some mode) = Err e.
Proof.
  intros Hm Hc Hs Hl Hr Hd.
  assert (Hfix : forall u v : ndarray sample,
             _fix u v (Some mode)
             = Err (ValueError
                      (String.append "fix_length="
                         (String.append (py_repr mode) " not understood")))).
  { intros u v. unfold _fix.
    destruct (String.eqb_spec mode "shortest"); [contradiction|].
    destruct (String.eqb_spec mode "longest"); [contradiction|].
    reflexivity. }
  split; [|split; [apply Hfix | split; [apply mentions_middle|]]].
  - unfold find_best_alignment_offset. rewrite Hr, Hd. simpl.
    destruct (String.eqb_spec method "mse"); [contradiction|].
    destruct (String.eqb_spec method "corr"); [contradiction|].
    reflexivity.
  - unfold align.
    destruct (find_best_alignment_offset a b mo la "mse") as [k|e];
      [|now exists e].
    cbn [bind].
    match goal with
    | |- context [bind ?c _] => destruct c as [[a' b']|e]; [|now exists e]
    end.
    cbn [bind]. rewrite Hfix. eauto.
Qed.

(** C3. When the search returns the offset [k]: for [0 < k], ["crop"] gives
    [a] without its first [k] samples and [b] itself, and ["pad"] gives [a]
    itself and [b] behind [k] zeros, [k] samples longer; for [k <= 0] the
    same holds with [a] and [b] exchanged and [- k] in place of [k], the
    pair being returned in the order [(a, b)]. *)
Theorem align_crops_or_pads_by_the_offset
    (a b : ndarray sample) (max_offset : Z) (max_lookahead : option Z)
    (k : Z) :
  find_best_alignment_offset a b max_offset max_lookahead "mse" = Ok k ->
  (0 < k ->
     align a b max_offset max_lookahead "crop" None
     = Ok (nd_slice a (Some k) None, b)
     /\ data (nd_slice a (Some k) None) = skipn (Z.to_nat k) (data a)
     /\ exists b',
          align a b max_offset max_lookahead "pad" None = Ok (a, b')
          /\ data b' = repeat zero (Z.to_nat k) ++ data b
          /\ len (data b') = len (data b) + k)
  /\ (k <= 0 ->
     align a b max_offset max_lookahead "crop" None
     = Ok (a, nd_slice b (Some (- k)) None)
     /\ data (nd_slice b (Some (- k)) None) = skipn (Z.to_nat (- k)) (data b)
     /\ exists a',
          align a b max_offset max_lookahead "pad" None = Ok (a', b)
          /\ data a' = repeat zero (Z.to_nat (- k)) ++ data a
          /\ len (data a') = len (data a) - k).
Proof.
  intros Hk. unfold align. rewrite Hk. simpl. split; intros Hs.
  - destruct (Z.ltb_spec 0 k); [|lia]. unfold _align. simpl.
    split; [reflexivity|]. split; [apply py_slice_from; lia|].
    rewrite np_pad_ok by lia. simpl. eexists. split; [reflexivity|].
    simpl. rewrite app_nil_r. split; [reflexivity|].
    unfold len. rewrite length_app, repeat_length. lia.
  - destruct (Z.ltb_spec 0 k); [lia|]. unfold _align. simpl.
    split; [reflexivity|]. split; [apply py_slice_from; lia|].
    rewrite np_pad_ok by lia. simpl. eexists. split; [reflexivity|].
    simpl. rewrite app_nil_r. split; [reflexivity|].
    unfold len. rewrite length_app, repeat_length. lia.
Qed.

(** C5. With [0 < max_offset_samples], an offset returned by the offset
    search lies in [[- max_offset_samples, max_offset_samples)]: by the loop
    and [np.argmax] for ["corr"], by the contract of the native routine for
    ["mse"]. *)
Theorem returned_offset_lies_in_the_search_range
    (r d : ndarray sample) (mo : Z) (la : option Z) (method : string)
    (k : Z) :
  native_in_range ->
  0 < mo ->
  find_best_alignment_offset r d mo la method = Ok k ->
  - mo <= k < mo.
Proof.
  intros Hnative Hmo. unfold find_best_alignment_offset.
  destruct (negb _); [discriminate|].
  destruct (String.eqb method "mse").
  - destruct (negb _); [discriminate|].
    intros H. injection H as <-. now apply Hnative.
  - destruct (String.eqb method "corr"); [|discriminate].
    apply corrcoef_offset_in_range.
Qed.

(** C6. [_fix] returns the pair unchanged for [None]; for ["shortest"] it
    keeps the first [min(len(x), len(y))] samples of each signal; for
    ["longest"] it appends zeros to each signal up to
    [max(len(x), len(y))] samples, so that the longer signal gets none. *)
Theorem fix_reconciles_the_lengths (x y : ndarray sample) :
  let min_len := Z.min (len (data x)) (len (data y)) in
  let max_len := Z.max (len (data x)) (len (data y)) in
  _fix x y None = Ok (x, y)
  /\ (exists x' y',
        _fix x y (Some "shortest") = Ok (x', y')
        /\ data x' = firstn (Z.to_nat min_len) (data x)
        /\ data y' = firstn (Z.to_nat min_len) (data y)
        /\ len (data x') = min_len /\ len (data y') = min_len)
  /\ (exists x' y',
        _fix x y (Some "longest") = Ok (x', y')
        /\ data x' = data x
                     ++ repeat zero (Z.to_nat (max_len - len (data x)))
        /\ data y' = data y
                     ++ repeat zero (Z.to_nat (max_len - len (data y)))
        /\ len (data x') = max_len /\ len (data y') = max_len).
Proof.
  intros min_len max_len. split; [reflexivity|]. split.
  - eexists _, _. split; [reflexivity|]. simpl. fold min_len.
    rewrite !py_slice_upto by (unfold min_len; unfold len; lia).
    repeat split; unfold len; rewrite length_firstn;
      unfold min_len, len; lia.
  - unfold _fix. simpl. fold max_len.
    rewrite !np_pad_ok by (unfold max_len; lia). simpl.
    eexists _, _. split; [reflexivity|]. simpl.
    repeat split; unfold len; rewrite length_app, repeat_length;
      unfold max_len, len; lia.
Qed.

(** C7. When the search returns the offset 0 and no length is fixed,
    ["crop"] returns the two arrays themselves and ["pad"] returns [b]
    itself and a copy of [a] with the same elements and element type. *)
Theorem align_at_offset_zero_changes_nothing
    (a b : ndarray sample) (max_offset : Z) (max_lookahead : option Z) :
  find_best_alignment_offset a b max_offset max_lookahead "mse" = Ok 0 ->
  align a b max_offset max_lookahead "crop" None = Ok (a, b)
  /\ exists a',
       align a b max_offset max_lookahead "pad" None = Ok (a', b)
       /\ data a' = data a /\ dtype a' = dtype a.
Proof.
  intros H0. unfold align. rewrite H0. simpl. split.
  - unfold _align. simpl. now rewrite nd_slice_from_zero.
  - unfold _align. simpl. unfold np_pad. simpl.
    eexists. split; [reflexivity|]. simpl. now rewrite app_nil_r.
Qed.

(** C8. The offset search raises an [AssertionError] when the two arrays
    have different element types, whatever the method, and, for ["mse"],
    when one of them is not contiguous; for ["corr"] the layout of the
    arrays changes nothing. *)
Theorem offset_search_checks_its_arrays
    (r d : ndarray sample) (mo : Z) (la : option Z) (method : string) :
  (dtype r <> dtype d ->
     find_best_alignment_offset r d mo la method
     = Err (AssertionError "Arrays must be float32"))
  /\ (c_contiguous r && c_contiguous d = false ->
      exists msg,
        find_best_alignment_offset r d mo la "mse" = Err (AssertionError msg))
  /\ (forall sr sd : Z,
        find_best_alignment_offset (with_stride r sr) (with_stride d sd)
          mo la "corr"
        = find_best_alignment_offset r d mo la "corr").
Proof.
  split; [|split].
  - intros Hne. unfold find_best_alignment_offset.
    destruct (dtype_eqb (dtype r) float32) eqn:Er; [|reflexivity].
    destruct (dtype_eqb (dtype d) float32) eqn:Ed; [|reflexivity].
    apply dtype_eqb_eq in Er, Ed. congruence.
  - intros Hc. unfold find_best_alignment_offset.
    destruct (negb _); [eauto|]. simpl. rewrite Hc. simpl. eauto.
  - intros sr sd. reflexivity.
Qed.

(** The public search with ["corr"] does not read [lookahead_samples]: the
    lags are scored on the whole signals. *)
Lemma corr_method_ignores_lookahead
    (r d : ndarray sample) (mo : Z) (la : option Z) :
  find_best_alignment_offset r d mo la "corr"
  = find_best_alignment_offset r d mo None "corr".
Proof.
  reflexivity.
Qed.

End Alignment.

Arguments np_pad {sample} zero a before after.
Arguments np_corrcoef {sample score} pearson x y.
Arguments argmax_from {score} score_leb best besti i l.
Arguments np_argmax {score} score_leb l.
Arguments autocorr_rows {sample} original delayed t.
Arguments fast_autocorr {sample score} pearson original delayed t.
Arguments signal_slices {sample} original_signal delayed_signal
  lookahead_samples.
Arguments collect_coefs {sample score} pearson original delayed lags.
Arguments find_best_alignment_offset_with_corrcoef {sample score}
  score_leb pearson original_signal delayed_signal
  min_offset_samples max_offset_samples lookahead_samples.
Arguments find_best_alignment_offset {sample score}
  score_leb pearson fast_find_alignment reference_signal delayed_signal
  max_offset_samples lookahead_samples method.
Arguments _align {sample} zero x y offset align_mode.
Arguments _fix {sample} zero py_repr x y fix_mode.
Arguments align {sample} zero {score} score_leb pearson fast_find_alignment
  py_repr a b max_offset max_lookahead align_mode fix_length.
Arguments rows_match {sample} original delayed t.
Arguments lag_score {sample score} pearson original delayed t.
Arguments native_lookahead {sample} reference_signal delayed_signal
  lookahead_samples.
Arguments native_in_range {sample} fast_find_alignment.
Arguments with_stride {sample} a s.

(** ** [align] and the two methods *)

Lemma mse_method_any_scorer
    {sample score score' : Type}
    (leb : score -> score -> bool) (leb' : score' -> score' -> bool)
    (pearson : list sample -> list sample -> score)
    (pearson' : list sample -> list sample -> score')
    (native : Z -> list sample -> Z -> list sample -> Z -> Z -> Z)
    (r d : ndarray sample) (mo : Z) (la : option Z) :
  find_best_alignment_offset leb pearson native r d mo la "mse"
  = find_best_alignment_offset leb' pearson' native r d mo la "mse".
Proof.
  unfold find_best_alignment_offset.
  destruct (negb _); [reflexivity|]. simpl.
  destruct (negb _); reflexivity.
Qed.

(** C10. [align] searches with ["mse"]: its result is the same whatever the
    correlation coefficient and the order on the scores are; it returns a
    pair only for two contiguous float32 arrays; and on such arrays the
    offset it applies is the answer of the native routine, which is the only
    reader of [max_lookahead] (replaced by the longer of the two lengths
    when it is [None]). *)
Theorem align_searches_with_the_native_routine
    {sample score score' : Type} (zero : sample)
    (leb : score -> score -> bool) (leb' : score' -> score' -> bool)
    (pearson : list sample -> list sample -> score)
    (pearson' : list sample -> list sample -> score')
    (native : Z -> list sample -> Z -> list sample -> Z -> Z -> Z)
    (py_repr : string -> string)
    (a b : ndarray sample) (max_offset : Z) (max_lookahead : option Z)
    (align_mode : string) (fix_length : option string) :
  align zero leb pearson native py_repr a b max_offset max_lookahead
    align_mode fix_length
  = align zero leb' pearson' native py_repr a b max_offset max_lookahead
      align_mode fix_length
  /\ (forall res,
        align zero leb pearson native py_repr a b max_offset max_lookahead
          align_mode fix_length = Ok res ->
        dtype a = float32 /\ dtype b = float32
        /\ c_contiguous a = true /\ c_contiguous b = true)
  /\ (dtype a = float32 -> dtype b = float32 ->
      c_contiguous a = true -> c_contiguous b = true ->
      let offset :=
        native (len (data b)) (data b) (len (data a)) (data a) max_offset
          (native_lookahead a b max_lookahead) in
      align zero leb pearson native py_repr a b max_offset max_lookahead
        align_mode fix_length
      = ('(a', b') <- (if 0 <? offset then _align zero a b offset align_mode
                       else '(b', a') <- _align zero b a (- offset)
                                           align_mode ;;
                            Ok (a', b')) ;;
         _fix zero py_repr a' b' fix_length)).
Proof.
  split; [|split].
  - unfold align.
    now rewrite (mse_method_any_scorer leb leb' pearson pearson').
  - intros res H. unfold align in H.
    destruct (find_best_alignment_offset leb pearson native a b max_offset
                max_lookahead "mse") as [k|e] eqn:Hk; [|discriminate].
    apply mse_method_inv in Hk. tauto.
  - intros Ha Hb Ca Cb offset. unfold align.
    rewrite (mse_method _ _ leb pearson native a b max_offset max_lookahead)
      by assumption.
    reflexivity.
Qed.

(** ** The theorems on the instance [Demo] *)

Lemma nan_top_leb_total (x y : option Q) :
  Demo.nan_top_leb x y = true \/ Demo.nan_top_leb y x = true.
Proof.
  destruct x as [a|], y as [b|]; simpl; auto.
  destruct (Qlt_le_dec a b) as [H|H]; [left | right];
    apply Qle_bool_iff; [now apply Qlt_le_weak | exact H].
Qed.

Lemma nan_top_leb_trans (x y z : option Q) :
  Demo.nan_top_leb x y = true -> Demo.nan_top_leb y z = true ->
  Demo.nan_top_leb x z = true.
Proof.
  destruct x as [a|], y as [b|], z as [c|]; simpl; try congruence.
  rewrite !Qle_bool_iff. apply Qle_trans.
Qed.

Lemma last_lag_in_range : native_in_range Demo.last_lag.
Proof.
  intros n1 x n2 y mo la Hmo. unfold Demo.last_lag. lia.
Qed.

(** C1 on [front] and [front'], with [max_offset_samples = 1] and
    [lookahead_samples = 4]: the public search with ["corr"] scores the lag
    0 on every fourth sample of the whole signals and returns 0, where the
    search on the window [[4, 8)], which
    [find_best_alignment_offset_with_corrcoef] makes when it is handed the
    lookahead, returns -1. *)
Lemma corr_method_scores_the_whole_signals :
  find_best_alignment_offset Demo.nan_top_leb Demo.pearson Demo.last_lag
    Demo.front Demo.front' 1 (Some 4) "corr" = Ok 0
  /\ find_best_alignment_offset Demo.nan_top_leb Demo.pearson Demo.last_lag
       Demo.front Demo.front' 1 (Some 4) "corr"
     = find_best_alignment_offset_with_corrcoef Demo.nan_top_leb Demo.pearson
         (data Demo.front) (data Demo.front') (- 1) 1 None
  /\ find_best_alignment_offset_with_corrcoef Demo.nan_top_leb Demo.pearson
       (data Demo.front) (data Demo.front') (- 1) 1 (Some 4) = Ok (- 1)
  /\ autocorr_rows (data Demo.front) (data Demo.front') 0 = ([5; 1], [5; 0])
  /\ autocorr_rows (data Demo.front) (data Demo.front') (- 1)
     = ([0; 1], [5; 0])
  /\ signal_slices (data Demo.front) (data Demo.front') (Some 4)
     = ([1; 1; 1; 1], [0; 1; 1; 1])
  /\ collect_coefs Demo.pearson [1; 1; 1; 1] [0; 1; 1; 1] (py_range (- 1) 1)
     = Ok [None; None].
Proof.
  repeat split; vm_compute; reflexivity.
Qed.

(** C2, the claim as stated fails: the error raised for the unknown method
    ["fft"] is [ValueError("Unknown method")], which does not name it. *)
Lemma unknown_method_error_does_not_name_the_value :
  find_best_alignment_offset Demo.nan_top_leb Demo.pearson Demo.last_lag
    Demo.ramp Demo.late_ramp 3 None "fft"
  = Err (ValueError "Unknown method")
  /\ mentions "Unknown method" "fft" = false.
Proof.
  split; vm_compute; reflexivity.
Qed.

(** The method ["fft"] and the length mode ["both"] on the two ramps. *)
Lemma unknown_method_and_fix_length_are_refused_witness :
  find_best_alignment_offset Demo.nan_top_leb Demo.pearson Demo.last_lag
    Demo.ramp Demo.late_ramp 3 None "fft"
  = Err (ValueError "Unknown method")
  /\ _fix 0 Demo.quoted Demo.ramp Demo.late_ramp (Some "both")
     = Err (ValueError "fix_length='both' not understood")
  /\ mentions "fix_length='both' not understood" "'both'" = true
  /\ exists e,
       align 0 Demo.nan_top_leb Demo.pearson Demo.last_lag Demo.quoted
         Demo.ramp Demo.late_ramp 3 None "crop" (Some "both") = Err e.
Proof.
  apply (unknown_method_and_fix_length_are_refused Z 0 (option Q)
           Demo.nan_top_leb Demo.pearson Demo.last_lag Demo.quoted
           Demo.ramp Demo.late_ramp Demo.ramp Demo.late_ramp
           Demo.ramp Demo.late_ramp 3 None "fft" "crop" "both");
    solve [discriminate | reflexivity].
Defined.

(** The two ramps at the offset 2. *)
Lemma align_crops_or_pads_by_the_offset_witness :
  align 0 Demo.nan_top_leb Demo.pearson Demo.last_lag Demo.quoted
    Demo.ramp Demo.late_ramp 3 None "crop" None
  = Ok (mk_ndarray float32 1 [3; 4; 5; 6; 7; 8], Demo.late_ramp)
  /\ exists b',
       align 0 Demo.nan_top_leb Demo.pearson Demo.last_lag Demo.quoted
         Demo.ramp Demo.late_ramp 3 None "pad" None = Ok (Demo.ramp, b')
       /\ data b' = [0; 0; 0; 0; 1; 2; 3; 4; 5; 6].
Proof.
  destruct (align_crops_or_pads_by_the_offset Z 0 (option Q)
              Demo.nan_top_leb Demo.pearson Demo.last_lag Demo.quoted
              Demo.ramp Demo.late_ramp 3 None 2 eq_refl) as [Hpos _].
  destruct (Hpos ltac:(lia)) as [Hcrop [_ [b' [Hpad [Hdata _]]]]].
  split; [exact Hcrop|]. exists b'. split; [exact Hpad | exact Hdata].
Defined.

(** The digits and the late digits, four lags. *)
Lemma corrcoef_search_returns_first_best_lag_witness :
  exists k,
    find_best_alignment_offset_with_corrcoef Demo.nan_top_leb Demo.pearson
      (data Demo.digits) (data Demo.late_digits) (- 2) 2 None = Ok k
    /\ - 2 <= k < 2
    /\ (forall t, - 2 <= t < 2 ->
          Demo.nan_top_leb
            (lag_score Demo.pearson (data Demo.digits)
               (data Demo.late_digits) t)
            (lag_score Demo.pearson (data Demo.digits)
               (data Demo.late_digits) k) = true)
    /\ (forall t, - 2 <= t < k ->
          Demo.nan_top_leb
            (lag_score Demo.pearson (data Demo.digits)
               (data Demo.late_digits) k)
            (lag_score Demo.pearson (data Demo.digits)
               (data Demo.late_digits) t) = false).
Proof.
  destruct (corrcoef_search_returns_first_best_lag Z (option Q)
              Demo.nan_top_leb Demo.pearson nan_top_leb_total
              nan_top_leb_trans
              (data Demo.digits) (data Demo.late_digits) (- 2) 2 None)
    as [coefs [k [_ [_ [Hk [Hr [Hmax Hfirst]]]]]]].
  - lia.
  - intros t _. apply rows_match_equal_length. reflexivity.
  - exists k. auto.
Defined.

(** The two ramps under ["mse"], with a native routine that keeps to its
    range. *)
Lemma returned_offset_lies_in_the_search_range_witness :
  find_best_alignment_offset Demo.nan_top_leb Demo.pearson Demo.last_lag
    Demo.ramp Demo.late_ramp 3 None "mse" = Ok 2
  /\ - 3 <= 2 < 3.
Proof.
  split; [reflexivity|].
  apply (returned_offset_lies_in_the_search_range Z (option Q) Demo.nan_top_leb
           Demo.pearson Demo.last_lag Demo.ramp Demo.late_ramp
           3 None "mse" 2 last_lag_in_range); [lia | reflexivity].
Defined.

(** The two ramps at the offset 0. *)
Lemma align_at_offset_zero_changes_nothing_witness :
  align 0 Demo.nan_top_leb Demo.pearson Demo.last_lag Demo.quoted
    Demo.ramp Demo.late_ramp 1 None "crop" None
  = Ok (Demo.ramp, Demo.late_ramp)
  /\ exists a',
       align 0 Demo.nan_top_leb Demo.pearson Demo.last_lag Demo.quoted
         Demo.ramp Demo.late_ramp 1 None "pad" None = Ok (a', Demo.late_ramp)
       /\ data a' = data Demo.ramp /\ dtype a' = dtype Demo.ramp.
Proof.
  apply (align_at_offset_zero_changes_nothing Z 0 (option Q) Demo.nan_top_leb
           Demo.pearson Demo.last_lag Demo.quoted
           Demo.ramp Demo.late_ramp 1 None).
  reflexivity.
Defined.

(** A float64 array, and a view that is not contiguous. *)
Lemma offset_search_checks_its_arrays_witness :
  find_best_alignment_offset Demo.nan_top_leb Demo.pearson Demo.last_lag
    Demo.ramp Demo.ramp64 3 None "corr"
  = Err (AssertionError "Arrays must be float32")
  /\ (exists msg,
        find_best_alignment_offset Demo.nan_top_leb Demo.pearson Demo.last_lag
          Demo.ramp Demo.strided_ramp 3 None "mse"
        = Err (AssertionError msg))
  /\ find_best_alignment_offset Demo.nan_top_leb Demo.pearson Demo.last_lag
       Demo.ramp Demo.strided_ramp 3 None "corr"
     = find_best_alignment_offset Demo.nan_top_leb Demo.pearson Demo.last_lag
         Demo.ramp Demo.ramp 3 None "corr".
Proof.
  split; [|split].
  - refine (proj1 (offset_search_checks_its_arrays Z (option Q)
                     Demo.nan_top_leb Demo.pearson Demo.last_lag
                     Demo.ramp Demo.ramp64 3 None "corr") _).
    discriminate.
  - refine (proj1 (proj2 (offset_search_checks_its_arrays Z (option Q)
                            Demo.nan_top_leb Demo.pearson Demo.last_lag
                            Demo.ramp Demo.strided_ramp 3 None "mse")) _).
    reflexivity.
  - exact (proj2 (proj2 (offset_search_checks_its_arrays Z (option Q)
                           Demo.nan_top_leb Demo.pearson Demo.last_lag
                           Demo.ramp Demo.ramp 3 None "corr")) 1 2).
Defined.

(** The two ramps, cropped and cut to the shorter length. *)
Lemma align_searches_with_the_native_routine_witness :
  align 0 Demo.nan_top_leb Demo.pearson Demo.last_lag Demo.quoted
    Demo.ramp Demo.late_ramp 3 None "crop" (Some "shortest")
  = ('(a', b') <- _align 0 Demo.ramp Demo.late_ramp
                    (Demo.last_lag 8 (data Demo.late_ramp)
                       8 (data Demo.ramp) 3 8) "crop" ;;
     _fix 0 Demo.quoted a' b' (Some "shortest"))
  /\ align 0 Demo.nan_top_leb Demo.pearson Demo.last_lag Demo.quoted
       Demo.ramp Demo.late_ramp 3 None "crop" (Some "shortest")
     = Ok (mk_ndarray float32 1 [3; 4; 5; 6; 7; 8],
           mk_ndarray float32 1 [0; 0; 1; 2; 3; 4]).
Proof.
  split; [|reflexivity].
  exact (proj2 (proj2 (align_searches_with_the_native_routine
                         (score' := Z) 0 Demo.nan_top_leb Z.leb Demo.pearson
                         (fun _ _ => 0) Demo.last_lag Demo.quoted
                         Demo.ramp Demo.late_ramp 3 None "crop"
                         (Some "shortest")))
           eq_refl eq_refl eq_refl eq_refl).
Defined.

(** * Further properties of the module *)

Section Further.

Variable sample : Type.
Variable zero : sample.
Variable score : Type.
Variable score_leb : score -> score -> bool.
Variable pearson : list sample -> list sample -> score.
Variable fast_find_alignment :
  Z -> list sample -> Z -> list sample -> Z -> Z -> Z.
Variable py_repr : string -> string.

(** The values of [fix_length] that [_fix] knows. *)
Definition known_fix_length (fix_length : option string) : Prop :=
  fix_length = None \/ fix_length = Some "shortest"
  \/ fix_length = Some "longest".

(** ** When the correlation search returns *)

Lemma rows_match_dec (original delayed : list sample) (t : Z) :
  {rows_match original delayed t} + {~ rows_match original delayed t}.
Proof.
  unfold rows_match. apply Nat.eq_dec.
Qed.

(** A lag whose rows cannot be correlated ends the loop with the error of
    numpy, wherever it stands in the range. *)
Lemma collect_coefs_raises (original delayed : list sample) (t : Z) :
  forall lags : list Z,
    In t lags -> ~ rows_match original delayed t ->
    collect_coefs pearson original delayed lags = Err NumpyError.
Proof.
  induction lags as [|lag rest IH]; intros Hin Hbad; [destruct Hin|].
  simpl. destruct (rows_match_dec original delayed lag) as [Hok|Hno].
  - rewrite (fast_autocorr_ok _ _ pearson) by exact Hok. simpl.
    destruct Hin as [->|Hin]; [contradiction|].
    now rewrite IH.
  - now rewrite (fast_autocorr_raises _ _ pearson) by exact Hno.
Qed.

Lemma collect_coefs_error (original delayed : list sample) :
  forall (lags : list Z) (e : exn),
    collect_coefs pearson original delayed lags = Err e -> e = NumpyError.
Proof.
  induction lags as [|lag rest IH]; intros e H; simpl in H; [discriminate|].
  destruct (rows_match_dec original delayed lag) as [Hok|Hno].
  - rewrite (fast_autocorr_ok _ _ pearson) in H by exact Hok. simpl in H.
    destruct (collect_coefs pearson original delayed rest) as [cs|e'];
      simpl in H; [discriminate|].
    injection H as <-. now apply IH.
  - rewrite (fast_autocorr_raises _ _ pearson) in H by exact Hno.
    simpl in H. congruence.
Qed.

Lemma corrcoef_search_empty_range
    (original delayed : list sample) (lo hi : Z) (la : option Z) :
  hi <= lo ->
  find_best_alignment_offset_with_corrcoef score_leb pearson
    original delayed lo hi la = Err NumpyError.
Proof.
  intros H. unfold find_best_alignment_offset_with_corrcoef.
  destruct (signal_slices original delayed la) as [o d].
  unfold py_range. replace (Z.to_nat (hi - lo)) with 0%nat by lia.
  reflexivity.
Qed.

(** X1. The correlation search returns an offset exactly when the range of
    lags is not empty and the two rows of every lag of the range have one
    length; in every other case it raises the error of numpy (from
    [np.argmax] on an empty range, from [np.corrcoef] on rows of two
    lengths). *)
Theorem corrcoef_search_returns_iff_every_lag_scores
    (original_signal delayed_signal : list sample) (lo hi : Z)
    (la : option Z) :
  let o := fst (signal_slices original_signal delayed_signal la) in
  let d := snd (signal_slices original_signal delayed_signal la) in
  ((exists k,
       find_best_alignment_offset_with_corrcoef score_leb pearson
         original_signal delayed_signal lo hi la = Ok k)
   <-> (lo < hi /\ forall t, lo <= t < hi -> rows_match o d t))
  /\ (forall e,
        find_best_alignment_offset_with_corrcoef score_leb pearson
          original_signal delayed_signal lo hi la = Err e ->
        e = NumpyError).
Proof.
  intros o d. unfold find_best_alignment_offset_with_corrcoef.
  subst o d.
  destruct (signal_slices original_signal delayed_signal la) as [o d].
  simpl. split; [split|].
  - intros [k Hk].
    destruct (collect_coefs pearson o d (py_range lo hi)) as [coefs|e] eqn:Hc;
      [|discriminate].
    simpl in Hk.
    destruct (np_argmax score_leb coefs) as [i|e] eqn:Hi; [|discriminate].
    apply np_argmax_bound in Hi.
    pose proof (collect_coefs_length _ _ pearson o d _ _ Hc) as Hlen.
    rewrite py_range_length in Hlen. split; [lia|].
    intros t Ht.
    destruct (rows_match_dec o d t) as [Hok|Hno]; [exact Hok|].
    rewrite (collect_coefs_raises o d t) in Hc;
      [discriminate | now apply py_range_In | exact Hno].
  - intros [Hne Hrows].
    rewrite collect_coefs_ok
      by (intros t Ht; apply Hrows; now apply py_range_In).
    simpl.
    destruct (map (lag_score pearson o d) (py_range lo hi)) as [|s l] eqn:E.
    + apply (f_equal (@List.length score)) in E.
      rewrite length_map, py_range_length in E. simpl in E. lia.
    + simpl. eauto.
  - intros e H.
    destruct (collect_coefs pearson o d (py_range lo hi)) as [coefs|e'] eqn:Hc.
    + simpl in H. destruct coefs; simpl in H; congruence.
    + simpl in H. injection H as <-. eapply collect_coefs_error, Hc.
Qed.

(** X2. With ["corr"] and [max_offset_samples <= 0] the range of lags is
    empty and the search on float32 arrays ends in the error [np.argmax]
    raises on an empty sequence: the degenerate range is not checked
    beforehand. *)
Theorem corr_search_over_an_empty_range_raises
    (r d : ndarray sample) (mo : Z) (la : option Z) :
  dtype r = float32 -> dtype d = float32 -> mo <= 0 ->
  find_best_alignment_offset score_leb pearson fast_find_alignment
    r d mo la "corr" = Err NumpyError.
Proof.
  intros Hr Hd Hmo.
  rewrite (corr_method _ _ score_leb pearson fast_find_alignment)
    by assumption.
  apply corrcoef_search_empty_range. lia.
Qed.

(** ** Ties go to the first lag *)

Lemma argmax_from_keeps (best : score) (besti : nat) (l : list score) :
  forall i : nat,
    (forall x, In x l -> score_leb x best = true) ->
    argmax_from score_leb best besti i l = besti.
Proof.
  induction l as [|x r IH]; intros i H; simpl; [reflexivity|].
  rewrite (H x) by now left.
  apply IH. intros y Hy. apply H. now right.
Qed.

Lemma py_range_cons (lo hi : Z) :
  lo < hi -> py_range lo hi = lo :: py_range (lo + 1) hi.
Proof.
  intros H. unfold py_range.
  replace (Z.to_nat (hi - lo)) with (S (Z.to_nat (hi - (lo + 1)))) by lia.
  simpl. f_equal; [lia|].
  rewrite <- seq_shift, map_map. apply map_ext. intros i. lia.
Qed.

(** Without a window: no lag above the first one, the first one returned. *)
Lemma corrcoef_search_first_lag (o d : list sample) (lo hi : Z) :
  lo < hi ->
  (forall t, lo <= t < hi -> rows_match o d t) ->
  (forall t, lo < t < hi ->
     score_leb (lag_score pearson o d t) (lag_score pearson o d lo) = true) ->
  find_best_alignment_offset_with_corrcoef score_leb pearson o d lo hi None
  = Ok lo.
Proof.
  intros Hne Hrows Hties.
  unfold find_best_alignment_offset_with_corrcoef. simpl.
  rewrite collect_coefs_ok
    by (intros t Ht; apply Hrows; now apply py_range_In).
  rewrite py_range_cons by exact Hne. simpl.
  rewrite argmax_from_keeps; [simpl; f_equal; lia|].
  intros x Hx. apply in_map_iff in Hx as [t [<- Ht]].
  apply Hties. apply py_range_In in Ht. lia.
Qed.

(** X3. When no lag of the range scores strictly above the first one (all
    scores tied, or all NaN as on constant signals), the correlation search
    returns the first lag, [min_offset_samples]. No assumption is made on
    the order of the scores. *)
Theorem corrcoef_search_returns_first_lag_when_none_scores_above
    (original_signal delayed_signal : list sample) (lo hi : Z)
    (la : option Z) :
  let o := fst (signal_slices original_signal delayed_signal la) in
  let d := snd (signal_slices original_signal delayed_signal la) in
  lo < hi ->
  (forall t, lo <= t < hi -> rows_match o d t) ->
  (forall t, lo < t < hi ->
     score_leb (lag_score pearson o d t) (lag_score pearson o d lo) = true) ->
  find_best_alignment_offset_with_corrcoef score_leb pearson
    original_signal delayed_signal lo hi la = Ok lo.
Proof.
  intros o d Hne Hrows Hties.
  rewrite corrcoef_search_on_slices.
  now apply corrcoef_search_first_lag.
Qed.

(** ** What [fast_autocorr] compares *)

Lemma stride_from_nth {A : Type} (step : nat) (l : list A) :
  (1 <= step)%nat ->
  forall k i : nat,
    nth_error (stride_from k step l) i = nth_error l (k + i * step).
Proof.
  intros Hs. induction l as [|x r IH]; intros k i; simpl.
  - now rewrite !nth_error_nil.
  - destruct k as [|k'].
    + destruct i as [|i']; simpl; [reflexivity|].
      rewrite IH.
      replace (step + i' * step)%nat with (S (Nat.pred step + i' * step))
        by lia.
      reflexivity.
    + simpl. apply IH.
Qed.

Lemma py_slice_nth {A : Type} (start stop : option Z) (step : nat)
    (l : list A) (i : nat) :
  (1 <= step)%nat ->
  let n := len l in
  let lo := match start with None => 0 | Some s => adjust_index n s end in
  let hi := match stop with None => n | Some s => adjust_index n s end in
  nth_error (py_slice start stop step l) i
  = if (i * step <? Z.to_nat (hi - lo))%nat
    then nth_error l (Z.to_nat lo + i * step)
    else None.
Proof.
  intros Hs n lo hi. unfold py_slice. fold n lo hi.
  rewrite stride_from_nth by exact Hs. simpl.
  rewrite nth_error_firstn, nth_error_skipn. reflexivity.
Qed.

(** X4. Exchanging the two signals and negating the lag gives
    [fast_autocorr] the same two rows in the other order: the call on
    [(delayed, original)] at the lag [- t] is [np.corrcoef] on the rows of
    the call on [(original, delayed)] at the lag [t], exchanged, and one of
    the two calls raises exactly when the other does. Nothing is assumed of
    the coefficient, which need not be the same for the exchanged rows. *)
Theorem fast_autocorr_of_swapped_signals
    (original delayed : list sample) (t : Z) :
  fast_autocorr pearson delayed original (- t)
  = np_corrcoef pearson (snd (autocorr_rows original delayed t))
                        (fst (autocorr_rows original delayed t))
  /\ ((exists e, fast_autocorr pearson delayed original (- t) = Err e)
      <-> (exists e, fast_autocorr pearson original delayed t = Err e)).
Proof.
  rewrite !fast_autocorr_rows, autocorr_rows_swap. cbn [fst snd].
  split; [reflexivity|].
  unfold np_corrcoef. rewrite Nat.eqb_sym.
  destruct (Nat.eqb _ _); split; intros [e H]; try discriminate; eauto.
Qed.

(** X5. The [i]-th samples [fast_autocorr] correlates at the lag [t] are
    [original[j]] and [delayed[j + t]], with [j = 4 * i] for [t >= 0] and
    [j = 4 * i - t] for [t < 0]: a positive lag compares the first signal
    with later samples of the second one. *)
Theorem fast_autocorr_pairs_samples_one_lag_apart
    (original delayed : list sample) (t : Z) (i : nat) (x y : sample) :
  nth_error (fst (autocorr_rows original delayed t)) i = Some x ->
  nth_error (snd (autocorr_rows original delayed t)) i = Some y ->
  let j := 4 * Z.of_nat i + Z.max 0 (- t) in
  nth_error original (Z.to_nat j) = Some x
  /\ nth_error delayed (Z.to_nat (j + t)) = Some y.
Proof.
  intros Hx Hy j. subst j. unfold autocorr_rows in Hx, Hy.
  destruct (Z.eqb_spec t 0) as [->|Hne];
    [|destruct (Z.ltb_spec t 0) as [Hneg|Hpos]];
    cbn [fst snd] in Hx, Hy;
    rewrite py_slice_nth in Hx, Hy by lia;
    cbv zeta in Hx, Hy; unfold adjust_index, len in Hx, Hy;
    repeat match type of Hx with
           | context [?a <? ?b] => destruct (Z.ltb_spec a b); try lia
           end;
    repeat match type of Hy with
           | context [?a <? ?b] => destruct (Z.ltb_spec a b); try lia
           end;
    match type of Hx with
    | context [(?a <? ?b)%nat] =>
        destruct (Nat.ltb_spec a b); [|discriminate]
    end;
    match type of Hy with
    | context [(?a <? ?b)%nat] =>
        destruct (Nat.ltb_spec a b); [|discriminate]
    end;
    split;
    match goal with
    | H : nth_error ?l ?p = Some ?v |- nth_error ?l ?q = Some ?v =>
        replace q with p by lia; exact H
    end.
Qed.

(** ** Lags beyond the signals, signals of two lengths *)

Lemma stride_from_firstn_nil {A : Type} (n step : nat) (l : list A) :
  n = 0%nat -> stride_from 0 step (firstn n l) = [].
Proof.
  intros ->. reflexivity.
Qed.

Lemma autocorr_rows_beyond (original delayed : list sample) (t : Z) :
  List.length original = List.length delayed ->
  len original <= Z.abs t ->
  autocorr_rows original delayed t = ([], []).
Proof.
  intros Hlen Ht. unfold autocorr_rows, py_slice, adjust_index.
  unfold len in *. rewrite <- Hlen.
  destruct (Z.eqb_spec t 0) as [->|Hne];
    [|destruct (Z.ltb_spec t 0)];
    f_equal; apply stride_from_firstn_nil;
    repeat match goal with
           | |- context [?a <? ?b] => destruct (Z.ltb_spec a b)
           end; lia.
Qed.

(** X6. A lag at least as long as the two signals (of one length) leaves
    nothing to compare: [fast_autocorr] raises nothing and returns the
    coefficient [np.corrcoef] gives for two empty rows. *)
Theorem lag_beyond_the_signals_scores_empty_rows
    (original delayed : list sample) (t : Z) :
  List.length original = List.length delayed ->
  len original <= Z.abs t ->
  autocorr_rows original delayed t = ([], [])
  /\ fast_autocorr pearson original delayed t = Ok (pearson [] []).
Proof.
  intros Hlen Ht.
  pose proof (autocorr_rows_beyond original delayed t Hlen Ht) as E.
  split; [exact E|].
  rewrite fast_autocorr_rows, E. reflexivity.
Qed.

(** X7. When [max_offset_samples] is at least the length of the two
    signals and the coefficient of two empty rows is on top of the order of
    [np.argmax] (it is NaN), the search with ["corr"] returns
    [- max_offset_samples], whatever the signals hold. *)
Theorem corr_search_beyond_the_signals_returns_the_first_lag
    (r d : ndarray sample) (mo : Z) (la : option Z) :
  dtype r = float32 -> dtype d = float32 ->
  List.length (data r) = List.length (data d) ->
  0 < mo -> len (data r) <= mo ->
  (forall s, score_leb s (pearson [] []) = true) ->
  find_best_alignment_offset score_leb pearson fast_find_alignment
    r d mo la "corr" = Ok (- mo).
Proof.
  intros Hr Hd Hlen Hmo Hbig Htop.
  rewrite (corr_method _ _ score_leb pearson fast_find_alignment)
    by assumption.
  apply corrcoef_search_first_lag; [lia | |].
  - intros t _. now apply rows_match_equal_length.
  - intros t _. unfold lag_score at 2.
    rewrite autocorr_rows_beyond by (try exact Hlen; lia).
    apply Htop.
Qed.

Lemma corrcoef_search_total (o d : list sample) (lo hi : Z) :
  lo < hi ->
  (forall t, lo <= t < hi -> rows_match o d t) ->
  exists k,
    find_best_alignment_offset_with_corrcoef score_leb pearson o d lo hi None
    = Ok k.
Proof.
  intros Hne Hrows. unfold find_best_alignment_offset_with_corrcoef. simpl.
  rewrite collect_coefs_ok
    by (intros t Ht; apply Hrows; now apply py_range_In).
  rewrite py_range_cons by exact Hne. simpl. eauto.
Qed.

(** X8. On two float32 signals of one length and with
    [0 < max_offset_samples], the search with ["corr"] always returns an
    offset, and the offset lies in
    [[- max_offset_samples, max_offset_samples)]: no lag makes
    [np.corrcoef] raise, however short the signals are. *)
Theorem corr_search_on_signals_of_one_length_returns
    (r d : ndarray sample) (mo : Z) (la : option Z) :
  dtype r = float32 -> dtype d = float32 ->
  List.length (data r) = List.length (data d) ->
  0 < mo ->
  exists k,
    find_best_alignment_offset score_leb pearson fast_find_alignment
      r d mo la "corr" = Ok k
    /\ - mo <= k < mo.
Proof.
  intros Hr Hd Hlen Hmo.
  rewrite (corr_method _ _ score_leb pearson fast_find_alignment)
    by assumption.
  destruct (corrcoef_search_total (data r) (data d) (- mo) mo) as [k Hk];
    [lia | intros t _; now apply rows_match_equal_length |].
  exists k. split; [exact Hk|].
  eapply corrcoef_offset_in_range, Hk.
Qed.

Lemma stride_from_four_length {A : Type} (l : list A) :
  forall k : nat,
    (k <= 3)%nat ->
    List.length (stride_from k 4 l) = ((List.length l + 3 - k) / 4)%nat.
Proof.
  induction l as [|x r IH]; intros k Hk; cbn [stride_from List.length].
  - symmetry. apply Nat.div_small. lia.
  - destruct k as [|k']; cbn [Nat.pred List.length].
    + rewrite IH by lia.
      replace (S (List.length r) + 3 - 0)%nat
        with (List.length r + 3 - 3 + 1 * 4)%nat by lia.
      rewrite Nat.div_add by lia. lia.
    + rewrite IH by lia. f_equal.
Qed.

(** Every fourth sample of [l]: a quarter of its length, rounded up. *)
Lemma every_fourth_length {A : Type} (l : list A) :
  List.length (py_slice None None 4 l) = ((List.length l + 3) / 4)%nat.
Proof.
  unfold py_slice, len. rewrite Z.sub_0_r, Nat2Z.id. simpl skipn.
  rewrite firstn_all, stride_from_four_length by lia.
  f_equal. lia.
Qed.

(** X9. With ["corr"] and [0 < max_offset_samples], two float32 signals
    whose lengths are not the same number of quarters (rounded up) make the
    search raise the error of numpy: at the lag 0 the two rows have two
    lengths. *)
Theorem corr_search_raises_on_signals_of_two_lengths
    (r d : ndarray sample) (mo : Z) (la : option Z) :
  dtype r = float32 -> dtype d = float32 ->
  0 < mo ->
  (len (data r) + 3) / 4 <> (len (data d) + 3) / 4 ->
  find_best_alignment_offset score_leb pearson fast_find_alignment
    r d mo la "corr" = Err NumpyError.
Proof.
  intros Hr Hd Hmo Hne.
  rewrite (corr_method _ _ score_leb pearson fast_find_alignment)
    by assumption.
  unfold find_best_alignment_offset_with_corrcoef. simpl.
  rewrite (collect_coefs_raises (data r) (data d) 0); [reflexivity | |].
  - apply py_range_In. lia.
  - unfold rows_match, autocorr_rows. simpl.
    rewrite !every_fourth_length. intros E. apply Hne.
    unfold len. apply (f_equal Z.of_nat) in E.
    rewrite !Nat2Z.inj_div, !Nat2Z.inj_add in E. exact E.
Qed.

(** ** The window *)

Lemma py_slice_window {A : Type} (m la : Z) (l : list A) :
  0 <= m -> 0 <= la ->
  py_slice (Some m) (Some (m + la)) 1 l
  = firstn (Z.to_nat la) (skipn (Z.to_nat m) l).
Proof.
  intros Hm Hla. unfold py_slice, adjust_index, len.
  rewrite stride_from_one.
  destruct (Z.ltb_spec m 0); [lia|].
  destruct (Z.ltb_spec (m + la) 0); [lia|].
  destruct (Z.le_gt_cases m (Z.of_nat (List.length l))) as [Hin|Hout].
  - rewrite (Z.min_l m) by lia.
    destruct (Z.le_gt_cases (m + la) (Z.of_nat (List.length l))).
    + rewrite Z.min_l by lia. do 2 f_equal. lia.
    + rewrite Z.min_r by lia.
      rewrite !firstn_all2 by (rewrite length_skipn; lia). reflexivity.
  - rewrite !Z.min_r by lia. rewrite Z.sub_diag.
    rewrite (skipn_all2 (n := Z.to_nat m)) by lia.
    now rewrite firstn_nil.
Qed.

(** X10. With [0 <= lookahead_samples < len(original_signal)] the window
    starts at the middle of the first signal and runs towards its end: both
    signals are cut to the [lookahead_samples] samples from the index
    [len(original_signal) // 2] on, as many as there are, so that the window
    of the first signal holds
    [min(lookahead_samples, len - len // 2)] samples. *)
Theorem window_starts_at_the_middle
    (original_signal delayed_signal : list sample) (la : Z) :
  0 <= la < len original_signal ->
  let middle := Z.to_nat (len original_signal / 2) in
  signal_slices original_signal delayed_signal (Some la)
  = (firstn (Z.to_nat la) (skipn middle original_signal),
     firstn (Z.to_nat la) (skipn middle delayed_signal))
  /\ len (fst (signal_slices original_signal delayed_signal (Some la)))
     = Z.min la (len original_signal - len original_signal / 2).
Proof.
  intros Hla middle. unfold signal_slices.
  destruct (Z.gtb_spec (len original_signal) la) as [_|Hle]; [|lia].
  assert (Hmid : 0 <= len original_signal / 2 <= len original_signal).
  { split; [apply Z.div_pos; lia|].
    apply Z.div_le_upper_bound; lia. }
  rewrite !py_slice_window by lia. fold middle.
  split; [reflexivity|].
  cbn [fst]. unfold len in *. rewrite length_firstn, length_skipn.
  unfold middle, len. lia.
Qed.

(** ** What the public search accepts *)

(** X11. The offset search returns an offset only for two float32 arrays
    (two arrays of one other type, float64 say, are refused as well), and
    only for the methods ["mse"], which also needs both arrays contiguous,
    and ["corr"]. *)
Theorem offset_search_returns_only_on_float32_arrays
    (r d : ndarray sample) (mo : Z) (la : option Z) (method : string)
    (k : Z) :
  find_best_alignment_offset score_leb pearson fast_find_alignment
    r d mo la method = Ok k ->
  dtype r = float32 /\ dtype d = float32
  /\ ((method = "mse" /\ c_contiguous r = true /\ c_contiguous d = true)
      \/ method = "corr").
Proof.
  unfold find_best_alignment_offset.
  destruct (dtype_eqb (dtype r) float32) eqn:Er; [|discriminate].
  destruct (dtype_eqb (dtype d) float32) eqn:Ed; [|discriminate].
  apply dtype_eqb_eq in Er, Ed. simpl.
  destruct (String.eqb_spec method "mse") as [->|_].
  - destruct (c_contiguous r); [|discriminate].
    destruct (c_contiguous d); [|discriminate].
    intros _. repeat split; auto.
  - destruct (String.eqb_spec method "corr") as [->|_]; [|discriminate].
    intros _. repeat split; auto.
Qed.

(** ** The stages of [align] *)

Lemma py_slice_one_length_le {A : Type} (start stop : option Z)
    (l : list A) :
  (List.length (py_slice start stop 1 l) <= List.length l)%nat.
Proof.
  unfold py_slice. rewrite stride_from_one, length_firstn, length_skipn.
  lia.
Qed.

Lemma nd_slice_contiguous (a : ndarray sample) (start stop : option Z) :
  c_contiguous a = true -> c_contiguous (nd_slice a start stop) = true.
Proof.
  unfold c_contiguous, nd_slice, len. simpl.
  pose proof (py_slice_one_length_le start stop (data a)) as Hle.
  rewrite !orb_true_iff, !Z.leb_le. intros [H|H]; [left; lia | now right].
Qed.

(** What [_align] returns keeps the element types and stays contiguous. *)
Lemma _align_keeps (x y x' y' : ndarray sample) (offset : Z)
    (align_mode : string) :
  _align zero x y offset align_mode = Ok (x', y') ->
  dtype x' = dtype x /\ dtype y' = dtype y
  /\ (c_contiguous x = true -> c_contiguous x' = true)
  /\ (c_contiguous y = true -> c_contiguous y' = true).
Proof.
  unfold _align. destruct (String.eqb align_mode "crop").
  - intros H. injection H as <- <-. simpl.
    repeat split; auto using nd_slice_contiguous.
  - destruct (String.eqb align_mode "pad").
    + unfold np_pad. destruct (_ || _); simpl; [discriminate|].
      intros H. injection H as <- <-. simpl. repeat split; auto.
      intros _. unfold c_contiguous. simpl. apply orb_true_r.
    + intros H. injection H as <- <-. auto.
Qed.

(** From a non-negative offset [_align] always returns. *)
Lemma _align_returns (x y : ndarray sample) (offset : Z)
    (align_mode : string) :
  0 <= offset ->
  exists x' y', _align zero x y offset align_mode = Ok (x', y').
Proof.
  intros H. unfold _align. destruct (String.eqb align_mode "crop");
    [eauto|].
  destruct (String.eqb align_mode "pad"); [|eauto].
  rewrite np_pad_ok by lia. simpl. eauto.
Qed.

Lemma _fix_returns_iff (x y : ndarray sample) (fix_length : option string) :
  (exists res, _fix zero py_repr x y fix_length = Ok res)
  <-> known_fix_length fix_length.
Proof.
  unfold known_fix_length, _fix. destruct fix_length as [mode|].
  - destruct (String.eqb_spec mode "shortest") as [->|Hs].
    + split; eauto.
    + destruct (String.eqb_spec mode "longest") as [->|Hl].
      * rewrite !np_pad_ok by lia. simpl. split; eauto.
      * split.
        -- intros [res H]. discriminate.
        -- intros [H|[H|H]]; congruence.
  - split; eauto.
Qed.

Lemma _fix_keeps (x y x' y' : ndarray sample) (fix_length : option string) :
  _fix zero py_repr x y fix_length = Ok (x', y') ->
  dtype x' = dtype x /\ dtype y' = dtype y
  /\ (c_contiguous x = true -> c_contiguous x' = true)
  /\ (c_contiguous y = true -> c_contiguous y' = true).
Proof.
  unfold _fix. destruct fix_length as [mode|].
  - destruct (String.eqb mode "shortest").
    + intros H. injection H as <- <-. simpl.
      repeat split; auto using nd_slice_contiguous.
    + destruct (String.eqb mode "longest"); [|discriminate].
      rewrite !np_pad_ok by lia. simpl.
      intros H. injection H as <- <-. simpl.
      repeat split; intros _; unfold c_contiguous; simpl; apply orb_true_r.
  - intros H. injection H as <- <-. auto.
Qed.

Lemma _fix_equal_lengths (x y x' y' : ndarray sample)
    (fix_length : option string) :
  fix_length = Some "shortest" \/ fix_length = Some "longest" ->
  _fix zero py_repr x y fix_length = Ok (x', y') ->
  len (data x') = len (data y').
Proof.
  intros [-> | ->]; unfold _fix; simpl.
  - intros H. injection H as <- <-. simpl.
    rewrite !py_slice_upto by (unfold len; lia).
    unfold len. rewrite !length_firstn. unfold len. lia.
  - rewrite !np_pad_ok by lia. simpl.
    intros H. injection H as <- <-. simpl.
    unfold len. rewrite !length_app, !repeat_length. unfold len. lia.
Qed.

(** The three stages of a call of [align] that returns. *)
Lemma align_stages (a b a' b' : ndarray sample) (mo : Z) (la : option Z)
    (align_mode : string) (fix_length : option string) :
  align zero score_leb pearson fast_find_alignment py_repr
    a b mo la align_mode fix_length = Ok (a', b') ->
  exists (k : Z) (a1 b1 : ndarray sample),
    find_best_alignment_offset score_leb pearson fast_find_alignment
      a b mo la "mse" = Ok k
    /\ (if 0 <? k then _align zero a b k align_mode = Ok (a1, b1)
        else _align zero b a (- k) align_mode = Ok (b1, a1))
    /\ _fix zero py_repr a1 b1 fix_length = Ok (a', b').
Proof.
  unfold align. intros H.
  destruct (find_best_alignment_offset score_leb pearson fast_find_alignment
              a b mo la "mse") as [k|e]; [|discriminate].
  exists k. cbn [bind] in H. destruct (0 <? k).
  - destruct (_align zero a b k align_mode) as [[a1 b1]|e];
      [|discriminate].
    exists a1, b1. repeat split. exact H.
  - destruct (_align zero b a (- k) align_mode) as [[b1 a1]|e];
      [|discriminate].
    exists a1, b1. repeat split. exact H.
Qed.

(** Once the search has returned, a known [fix_length] is all [align]
    needs to return. *)
Lemma align_returns_after_search (a b : ndarray sample) (mo : Z)
    (la : option Z) (align_mode : string) (fix_length : option string)
    (k : Z) :
  find_best_alignment_offset score_leb pearson fast_find_alignment
    a b mo la "mse" = Ok k ->
  known_fix_length fix_length ->
  exists res,
    align zero score_leb pearson fast_find_alignment py_repr
      a b mo la align_mode fix_length = Ok res.
Proof.
  intros Hk Hfix. unfold align. rewrite Hk. cbn [bind].
  destruct (Z.ltb_spec 0 k) as [Hpos|Hneg].
  - destruct (_align_returns a b k align_mode) as [a1 [b1 E]]; [lia|].
    rewrite E. cbn [bind]. now apply _fix_returns_iff.
  - destruct (_align_returns b a (- k) align_mode) as [b1 [a1 E]]; [lia|].
    rewrite E. cbn [bind]. now apply _fix_returns_iff.
Qed.

(** X12. Once the offset search has returned, [align] returns a pair
    exactly when [fix_length] is [None], ["shortest"] or ["longest"]:
    neither [align_mode] nor the offset found can make it raise ([np.pad]
    is never given a negative width). *)
Theorem align_returns_exactly_on_valid_input
    (a b : ndarray sample) (mo : Z) (la : option Z)
    (align_mode : string) (fix_length : option string) (k : Z) :
  find_best_alignment_offset score_leb pearson fast_find_alignment
    a b mo la "mse" = Ok k ->
  ((exists res,
       align zero score_leb pearson fast_find_alignment py_repr
         a b mo la align_mode fix_length = Ok res)
   <-> known_fix_length fix_length).
Proof.
  intros Hk. split.
  - intros [[a' b'] H].
    apply align_stages in H as [k' [a1 [b1 [_ [_ Hfix]]]]].
    apply (_fix_returns_iff a1 b1). eauto.
  - intros Hfix. eapply align_returns_after_search; eassumption.
Qed.

(** X13. An [align_mode] that is neither ["crop"] nor ["pad"] is not
    refused: once the search has returned, [align] goes on to [_fix] with
    the two arrays as they were given. *)
Theorem align_with_an_unknown_align_mode_aligns_nothing
    (a b : ndarray sample) (mo : Z) (la : option Z)
    (align_mode : string) (fix_length : option string) (k : Z) :
  align_mode <> "crop" -> align_mode <> "pad" ->
  find_best_alignment_offset score_leb pearson fast_find_alignment
    a b mo la "mse" = Ok k ->
  align zero score_leb pearson fast_find_alignment py_repr
    a b mo la align_mode fix_length
  = _fix zero py_repr a b fix_length.
Proof.
  intros Hc Hp Hk. unfold align. rewrite Hk. cbn [bind].
  rewrite !align_mode_unknown by assumption.
  destruct (0 <? k); reflexivity.
Qed.

(** X14. The two arrays [align] returns are again contiguous float32
    arrays, and [align] can be applied to them: with the same [fix_length]
    it returns a pair whenever its offset search on them returns. *)
Theorem align_can_be_applied_to_its_result
    (a b a' b' : ndarray sample) (mo : Z) (la : option Z)
    (align_mode : string) (fix_length : option string) :
  align zero score_leb pearson fast_find_alignment py_repr
    a b mo la align_mode fix_length = Ok (a', b') ->
  dtype a' = float32 /\ dtype b' = float32
  /\ c_contiguous a' = true /\ c_contiguous b' = true
  /\ forall (mo' : Z) (la' : option Z) (align_mode' : string) (k' : Z),
       find_best_alignment_offset score_leb pearson fast_find_alignment
         a' b' mo' la' "mse" = Ok k' ->
       exists res,
         align zero score_leb pearson fast_find_alignment py_repr
           a' b' mo' la' align_mode' fix_length = Ok res.
Proof.
  intros H.
  apply align_stages in H as [k [a1 [b1 [Hk [Hal Hfix]]]]].
  apply mse_method_inv in Hk as [Ha [Hb [Ca [Cb _]]]].
  assert (H1 : dtype a1 = float32 /\ dtype b1 = float32
               /\ c_contiguous a1 = true /\ c_contiguous b1 = true).
  { destruct (0 <? k); apply _align_keeps in Hal as [E1 [E2 [C1 C2]]];
      repeat split; try congruence; auto. }
  destruct H1 as [Ha1 [Hb1 [Ca1 Cb1]]].
  pose proof (proj1 (_fix_returns_iff a1 b1 fix_length)
                (ex_intro _ _ Hfix)) as Hknown.
  apply _fix_keeps in Hfix as [E1 [E2 [C1 C2]]].
  assert (Ha' : dtype a' = float32) by congruence.
  assert (Hb' : dtype b' = float32) by congruence.
  repeat split; auto.
  intros mo' la' align_mode' k' Hk'.
  eapply align_returns_after_search; eassumption.
Qed.

(** X15. With [fix_length] ["shortest"] or ["longest"] the two arrays
    [align] returns have one length, whatever [align_mode] is. *)
Theorem align_with_a_fix_length_returns_one_length
    (a b a' b' : ndarray sample) (mo : Z) (la : option Z)
    (align_mode : string) (fix_length : option string) :
  fix_length = Some "shortest" \/ fix_length = Some "longest" ->
  align zero score_leb pearson fast_find_alignment py_repr
    a b mo la align_mode fix_length = Ok (a', b') ->
  len (data a') = len (data b').
Proof.
  intros Hfl H.
  apply align_stages in H as [k [a1 [b1 [_ [_ Hfix]]]]].
  eapply _fix_equal_lengths; eassumption.
Qed.

(** On two arrays of one length [_fix] changes no sample. *)
Lemma _fix_on_one_length (x y : ndarray sample) (fix_length : option string) :
  len (data x) = len (data y) ->
  known_fix_length fix_length ->
  exists x' y',
    _fix zero py_repr x y fix_length = Ok (x', y')
    /\ data x' = data x /\ data y' = data y.
Proof.
  intros Hlen [-> | [-> | ->]]; unfold _fix; simpl.
  - eauto.
  - eexists _, _. split; [reflexivity|]. simpl.
    rewrite !py_slice_upto by (unfold len in *; lia).
    split; apply firstn_all2; unfold len in *; lia.
  - rewrite !np_pad_ok by lia. simpl.
    eexists _, _. split; [reflexivity|]. simpl.
    rewrite Hlen, Z.max_id, Z.sub_diag. simpl.
    now rewrite !app_nil_r.
Qed.

(** X16. [_fix] is idempotent on the samples: applied with the same
    [fix_length] to the pair it returned, it returns a pair with the same
    samples. *)
Theorem fix_of_a_fixed_pair_changes_no_sample
    (x y x' y' : ndarray sample) (fix_length : option string) :
  _fix zero py_repr x y fix_length = Ok (x', y') ->
  exists x'' y'',
    _fix zero py_repr x' y' fix_length = Ok (x'', y'')
    /\ data x'' = data x' /\ data y'' = data y'.
Proof.
  intros H.
  pose proof (proj1 (_fix_returns_iff x y fix_length) (ex_intro _ _ H))
    as Hknown.
  destruct Hknown as [-> | Hfl].
  - injection H as <- <-. simpl. eauto.
  - apply _fix_on_one_length.
    + eapply _fix_equal_lengths; eassumption.
    + right. exact Hfl.
Qed.

End Further.

(** ** The further properties on the instance [Demo] *)

(** No lag at all: [max_offset_samples = 0]. *)
Lemma corr_search_over_an_empty_range_raises_witness :
  find_best_alignment_offset Demo.nan_top_leb Demo.pearson Demo.last_lag
    Demo.ramp Demo.late_ramp 0 None "corr" = Err NumpyError.
Proof.
  apply (corr_search_over_an_empty_range_raises Z (option Q)
           Demo.nan_top_leb Demo.pearson Demo.last_lag
           Demo.ramp Demo.late_ramp 0 None); [reflexivity | reflexivity | lia].
Defined.

(** A constant signal against itself: every score is NaN. *)
Lemma corrcoef_search_returns_first_lag_when_none_scores_above_witness :
  find_best_alignment_offset_with_corrcoef Demo.nan_top_leb Demo.pearson
    [2; 2; 2; 2; 2; 2; 2; 2] [2; 2; 2; 2; 2; 2; 2; 2] (- 2) 2 None
  = Ok (- 2).
Proof.
  apply (corrcoef_search_returns_first_lag_when_none_scores_above
           Z (option Q) Demo.nan_top_leb Demo.pearson
           [2; 2; 2; 2; 2; 2; 2; 2] [2; 2; 2; 2; 2; 2; 2; 2] (- 2) 2 None).
  - lia.
  - intros t _. apply rows_match_equal_length. reflexivity.
  - intros t Ht.
    assert (E : t = - 1 \/ t = 0 \/ t = 1) by lia.
    destruct E as [->|[->| ->]]; reflexivity.
Defined.

(** The second pair of the lag 1: [digits[4]] and [late_digits[5]]. *)
Lemma fast_autocorr_pairs_samples_one_lag_apart_witness :
  nth_error (data Demo.digits) 4 = Some 5
  /\ nth_error (data Demo.late_digits) 5 = Some 5.
Proof.
  exact (fast_autocorr_pairs_samples_one_lag_apart Z
           (data Demo.digits) (data Demo.late_digits) 1 1 5 5
           eq_refl eq_refl).
Defined.

(** The ramps, eight samples long, at the lag 9. *)
Lemma lag_beyond_the_signals_scores_empty_rows_witness :
  autocorr_rows (data Demo.ramp) (data Demo.late_ramp) 9 = ([], [])
  /\ fast_autocorr Demo.pearson (data Demo.ramp) (data Demo.late_ramp) 9
     = Ok None.
Proof.
  apply (lag_beyond_the_signals_scores_empty_rows Z (option Q) Demo.pearson
           (data Demo.ramp) (data Demo.late_ramp) 9);
    [reflexivity | vm_compute; discriminate].
Defined.

(** The ramps, eight samples long, searched up to eight samples. *)
Lemma corr_search_beyond_the_signals_returns_the_first_lag_witness :
  find_best_alignment_offset Demo.nan_top_leb Demo.pearson Demo.last_lag
    Demo.ramp Demo.late_ramp 8 None "corr" = Ok (- 8).
Proof.
  apply (corr_search_beyond_the_signals_returns_the_first_lag Z (option Q)
           Demo.nan_top_leb Demo.pearson Demo.last_lag
           Demo.ramp Demo.late_ramp 8 None);
    try reflexivity; try lia.
Defined.

(** The digits and the late digits. *)
Lemma corr_search_on_signals_of_one_length_returns_witness :
  exists k,
    find_best_alignment_offset Demo.nan_top_leb Demo.pearson Demo.last_lag
      Demo.digits Demo.late_digits 2 None "corr" = Ok k
    /\ - 2 <= k < 2.
Proof.
  apply (corr_search_on_signals_of_one_length_returns Z (option Q)
           Demo.nan_top_leb Demo.pearson Demo.last_lag
           Demo.digits Demo.late_digits 2 None);
    [reflexivity | reflexivity | reflexivity | lia].
Defined.

(** Sixteen samples against eight: four quarters against two. *)
Lemma corr_search_raises_on_signals_of_two_lengths_witness :
  find_best_alignment_offset Demo.nan_top_leb Demo.pearson Demo.last_lag
    Demo.digits Demo.ramp 2 None "corr" = Err NumpyError.
Proof.
  apply (corr_search_raises_on_signals_of_two_lengths Z (option Q)
           Demo.nan_top_leb Demo.pearson Demo.last_lag
           Demo.digits Demo.ramp 2 None);
    [reflexivity | reflexivity | lia | vm_compute; discriminate].
Defined.

(** Sixteen samples and a lookahead of twelve: the window holds eight. *)
Lemma window_starts_at_the_middle_witness :
  signal_slices (data Demo.digits) (data Demo.late_digits) (Some 12)
  = ([5; 3; 5; 8; 9; 7; 9; 3], [6; 5; 3; 5; 8; 9; 7; 9])
  /\ len (fst (signal_slices (data Demo.digits) (data Demo.late_digits)
                 (Some 12))) = 8.
Proof.
  apply (window_starts_at_the_middle Z
           (data Demo.digits) (data Demo.late_digits) 12).
  vm_compute. split; [discriminate | reflexivity].
Defined.

(** The ramps under ["mse"]. *)
Lemma offset_search_returns_only_on_float32_arrays_witness :
  dtype Demo.ramp = float32 /\ dtype Demo.late_ramp = float32
  /\ (("mse" = "mse" /\ c_contiguous Demo.ramp = true
       /\ c_contiguous Demo.late_ramp = true)
      \/ "mse" = "corr").
Proof.
  exact (offset_search_returns_only_on_float32_arrays Z (option Q)
           Demo.nan_top_leb Demo.pearson Demo.last_lag
           Demo.ramp Demo.late_ramp 3 None "mse" 2 eq_refl).
Defined.

(** The ramps with the [align_mode] ["trim"]. *)
Lemma align_with_an_unknown_align_mode_aligns_nothing_witness :
  align 0 Demo.nan_top_leb Demo.pearson Demo.last_lag Demo.quoted
    Demo.ramp Demo.late_ramp 3 None "trim" None
  = Ok (Demo.ramp, Demo.late_ramp).
Proof.
  apply (align_with_an_unknown_align_mode_aligns_nothing Z 0 (option Q)
           Demo.nan_top_leb Demo.pearson Demo.last_lag Demo.quoted
           Demo.ramp Demo.late_ramp 3 None "trim" None 2);
    [discriminate | discriminate | reflexivity].
Defined.

(** The ramps, cropped and cut to the shorter length, aligned again. *)
Lemma align_can_be_applied_to_its_result_witness :
  exists res,
    align 0 Demo.nan_top_leb Demo.pearson Demo.last_lag Demo.quoted
      (mk_ndarray float32 1 [3; 4; 5; 6; 7; 8])
      (mk_ndarray float32 1 [0; 0; 1; 2; 3; 4])
      1 None "pad" (Some "shortest") = Ok res.
Proof.
  exact (proj2 (proj2 (proj2 (proj2
           (align_can_be_applied_to_its_result Z 0 (option Q)
              Demo.nan_top_leb Demo.pearson Demo.last_lag Demo.quoted
              Demo.ramp Demo.late_ramp
              (mk_ndarray float32 1 [3; 4; 5; 6; 7; 8])
              (mk_ndarray float32 1 [0; 0; 1; 2; 3; 4])
              3 None "crop" (Some "shortest") eq_refl))))
           1 None "pad" 0 eq_refl).
Defined.

(** The ramps under ["mse"], cropped, with and without a known length
    mode. *)
Lemma align_returns_exactly_on_valid_input_witness :
  (exists res,
      align 0 Demo.nan_top_leb Demo.pearson Demo.last_lag Demo.quoted
        Demo.ramp Demo.late_ramp 3 None "crop" (Some "longest") = Ok res)
  /\ ~ (exists res,
          align 0 Demo.nan_top_leb Demo.pearson Demo.last_lag Demo.quoted
            Demo.ramp Demo.late_ramp 3 None "crop" (Some "both") = Ok res).
Proof.
  split.
  - apply (proj2 (align_returns_exactly_on_valid_input Z 0 (option Q)
                    Demo.nan_top_leb Demo.pearson Demo.last_lag Demo.quoted
                    Demo.ramp Demo.late_ramp 3 None "crop" (Some "longest")
                    2 eq_refl)).
    right. right. reflexivity.
  - intros H.
    apply (proj1 (align_returns_exactly_on_valid_input Z 0 (option Q)
                    Demo.nan_top_leb Demo.pearson Demo.last_lag Demo.quoted
                    Demo.ramp Demo.late_ramp 3 None "crop" (Some "both")
                    2 eq_refl)) in H.
    destruct H as [H|[H|H]]; discriminate.
Defined.

(** The ramps, padded and filled to the longer length. *)
Lemma align_with_a_fix_length_returns_one_length_witness :
  len [1; 2; 3; 4; 5; 6; 7; 8; 0; 0] = len [0; 0; 0; 0; 1; 2; 3; 4; 5; 6].
Proof.
  exact (align_with_a_fix_length_returns_one_length Z 0 (option Q)
           Demo.nan_top_leb Demo.pearson Demo.last_lag Demo.quoted
           Demo.ramp Demo.late_ramp
           (mk_ndarray float32 1 [1; 2; 3; 4; 5; 6; 7; 8; 0; 0])
           (mk_ndarray float32 1 [0; 0; 0; 0; 1; 2; 3; 4; 5; 6])
           3 None "pad" (Some "longest") (or_intror eq_refl) eq_refl).
Defined.

(** The ramp and its first six samples, filled to the longer length. *)
Lemma fix_of_a_fixed_pair_changes_no_sample_witness :
  exists x'' y'',
    _fix 0 Demo.quoted Demo.ramp
      (mk_ndarray float32 1 [1; 2; 3; 4; 5; 6; 0; 0]) (Some "longest")
    = Ok (x'', y'')
    /\ data x'' = [1; 2; 3; 4; 5; 6; 7; 8]
    /\ data y'' = [1; 2; 3; 4; 5; 6; 0; 0].
Proof.
  exact (fix_of_a_fixed_pair_changes_no_sample Z 0 Demo.quoted
           Demo.ramp (mk_ndarray float32 1 [1; 2; 3; 4; 5; 6])
           Demo.ramp (mk_ndarray float32 1 [1; 2; 3; 4; 5; 6; 0; 0])
           (Some "longest") eq_refl).
Defined.

(** * The search on floating-point scores *)

Section FloatScores.

Variable sample : Type.
Variable score : Type.
Variable pearson : list sample -> list sample -> score.
Variable is_nan : score -> bool.
Variable float_leb : score -> score -> bool.

(** The order [np.argmax] scans floats with: the running best is kept when
    it is NaN (the scan stops there) or when the new value is [<=] it. *)
Definition argmax_leb (x best : score) : bool :=
  is_nan best || float_leb x best.

(** [<=] on the floats: false when the left side is NaN, a total preorder
    on the numbers. *)
Hypothesis float_leb_nan_l :
  forall x y, is_nan x = true -> float_leb x y = false.
Hypothesis float_leb_total :
  forall x y,
    is_nan x = false -> is_nan y = false ->
    float_leb x y = true \/ float_leb y x = true.
Hypothesis float_leb_trans :
  forall x y z,
    float_leb x y = true -> float_leb y z = true -> float_leb x z = true.

Lemma argmax_leb_total (x y : score) :
  argmax_leb x y = true \/ argmax_leb y x = true.
Proof.
  unfold argmax_leb.
  destruct (is_nan y) eqn:Ey; [now left|].
  destruct (is_nan x) eqn:Ex; [now right|].
  simpl. now apply float_leb_total.
Qed.

Lemma argmax_leb_trans (x y z : score) :
  argmax_leb x y = true -> argmax_leb y z = true -> argmax_leb x z = true.
Proof.
  unfold argmax_leb.
  destruct (is_nan z) eqn:Ez; [reflexivity|]. simpl.
  intros Hxy Hyz.
  destruct (is_nan y) eqn:Ey.
  - now rewrite float_leb_nan_l in Hyz.
  - simpl in Hxy. eapply float_leb_trans; eassumption.
Qed.

(** C4, as amended. On a non-empty range of lags at each of which the two
    rows have one length, the correlation search scores every lag of the
    range, in increasing order (the [i]-th score collected is the score of
    the lag [lo + i]), and returns a lag [k] of the range: when the score of
    some lag is NaN, [k] is the first lag whose score is NaN; when no score
    is NaN, [k] is the first lag that reaches the maximum score (no lag
    scores above it, every lag before it scores strictly below it). *)
Theorem corrcoef_search_returns_first_nan_or_first_maximum
    (original_signal delayed_signal : list sample) (lo hi : Z)
    (la : option Z) :
  let o := fst (signal_slices original_signal delayed_signal la) in
  let d := snd (signal_slices original_signal delayed_signal la) in
  let s := lag_score pearson o d in
  lo < hi ->
  (forall t, lo <= t < hi -> rows_match o d t) ->
  exists (coefs : list score) (k : Z),
    collect_coefs pearson o d (py_range lo hi) = Ok coefs
    /\ (forall i, 0 <= i < hi - lo ->
          nth_error coefs (Z.to_nat i) = Some (s (lo + i)))
    /\ find_best_alignment_offset_with_corrcoef argmax_leb pearson
         original_signal delayed_signal lo hi la = Ok k
    /\ lo <= k < hi
    /\ ((exists t, lo <= t < hi /\ is_nan (s t) = true) ->
        is_nan (s k) = true
        /\ forall t, lo <= t < k -> is_nan (s t) = false)
    /\ ((forall t, lo <= t < hi -> is_nan (s t) = false) ->
        (forall t, lo <= t < hi -> float_leb (s t) (s k) = true)
        /\ (forall t, lo <= t < k -> float_leb (s k) (s t) = false)).
Proof.
  intros o d s Hne Hrows.
  destruct (corrcoef_search_first_best _ _ argmax_leb pearson
              argmax_leb_total argmax_leb_trans o d lo hi Hne Hrows)
    as [k [Hf [Hk [Hmax Hfirst]]]].
  fold s in Hmax, Hfirst.
  exists (map s (py_range lo hi)), k.
  split.
  { apply collect_coefs_ok. intros t Ht. apply Hrows. now apply py_range_In. }
  split.
  { intros j Hj. replace (Z.to_nat j) with (Z.to_nat ((lo + j) - lo)) by lia.
    apply scores_nth. lia. }
  split; [rewrite corrcoef_search_on_slices; exact Hf|].
  split; [exact Hk|]. split.
  - intros [t [Ht Hnan]].
    assert (Ek : is_nan (s k) = true).
    { specialize (Hmax t Ht). unfold argmax_leb in Hmax.
      rewrite (float_leb_nan_l _ _ Hnan), orb_false_r in Hmax. exact Hmax. }
    split; [exact Ek|]. intros u Hu.
    specialize (Hfirst u Hu). unfold argmax_leb in Hfirst.
    now apply orb_false_iff in Hfirst.
  - intros Hnum. split.
    + intros t Ht. specialize (Hmax t Ht). unfold argmax_leb in Hmax.
      now rewrite (Hnum k Hk) in Hmax.
    + intros t Ht. specialize (Hfirst t Ht). unfold argmax_leb in Hfirst.
      now apply orb_false_iff in Hfirst.
Qed.

End FloatScores.

Arguments argmax_leb {score} is_nan float_leb x best.

(** * The search on the two signals exchanged *)

Section Exchanged.

Variable sample : Type.
Variable score : Type.
Variable score_leb : score -> score -> bool.
Variable pearson : list sample -> list sample -> score.
Variable fast_find_alignment :
  Z -> list sample -> Z -> list sample -> Z -> Z -> Z.

(** The coefficient of the two rows of the lag [t] of [(a, b)], taken in the
    other order: what the search on [(b, a)] computes at the lag [- t]. *)
Definition exchanged_lag_score (a b : list sample) (t : Z) : score :=
  pearson (snd (autocorr_rows a b t)) (fst (autocorr_rows a b t)).

Hypothesis score_leb_total :
  forall x y, score_leb x y = true \/ score_leb y x = true.
Hypothesis score_leb_trans :
  forall x y z,
    score_leb x y = true -> score_leb y z = true -> score_leb x z = true.

Lemma lag_score_of_swapped (a b : list sample) (t : Z) :
  lag_score pearson b a (- t) = exchanged_lag_score a b t.
Proof.
  unfold lag_score, exchanged_lag_score. now rewrite autocorr_rows_swap.
Qed.

(** A search that returns has correlated the rows of every lag. *)
Lemma corrcoef_search_rows (o d : list sample) (lo hi k : Z) :
  find_best_alignment_offset_with_corrcoef score_leb pearson o d lo hi None
  = Ok k ->
  forall t, lo <= t < hi -> rows_match o d t.
Proof.
  unfold find_best_alignment_offset_with_corrcoef. simpl.
  intros H t Ht.
  destruct (rows_match_dec _ o d t) as [Hok|Hno]; [exact Hok|].
  rewrite (collect_coefs_raises _ _ pearson o d t) in H;
    [discriminate | now apply py_range_In | exact Hno].
Qed.

(** The first best lag is the one returned. *)
Lemma corrcoef_search_first_best_unique (o d : list sample) (lo hi k : Z) :
  lo <= k < hi ->
  (forall t, lo <= t < hi -> rows_match o d t) ->
  (forall t, lo <= t < hi ->
     score_leb (lag_score pearson o d t) (lag_score pearson o d k) = true) ->
  (forall t, lo <= t < k ->
     score_leb (lag_score pearson o d k) (lag_score pearson o d t) = false) ->
  find_best_alignment_offset_with_corrcoef score_leb pearson o d lo hi None
  = Ok k.
Proof.
  intros Hk Hrows Hmax Hfirst.
  destruct (corrcoef_search_first_best _ _ score_leb pearson
              score_leb_total score_leb_trans o d lo hi)
    as [k' [Hf [Hk' [Hmax' Hfirst']]]]; [lia | exact Hrows |].
  destruct (Z.lt_trichotomy k' k) as [Hlt|[->|Hgt]]; [|exact Hf|].
  - specialize (Hfirst k' ltac:(lia)). specialize (Hmax' k Hk). congruence.
  - specialize (Hfirst' k ltac:(lia)). specialize (Hmax k' Hk'). congruence.
Qed.


End Exchanged.

Arguments exchanged_lag_score {sample score} pearson a b t.

(** ** The two theorems on the instance [Demo] *)

Module DemoFloat.

Definition is_nan (s : option Q) : bool :=
  match s with
  | None => true
  | Some _ => false
  end.

Definition float_leb (x y : option Q) : bool :=
  match x, y with
  | Some a, Some b => Qle_bool a b
  | _, _ => false
  end.

End DemoFloat.

Lemma demo_float_leb_nan_l (x y : option Q) :
  DemoFloat.is_nan x = true -> DemoFloat.float_leb x y = false.
Proof.
  destruct x; [discriminate | reflexivity].
Qed.

Lemma demo_float_leb_total (x y : option Q) :
  DemoFloat.is_nan x = false -> DemoFloat.is_nan y = false ->
  DemoFloat.float_leb x y = true \/ DemoFloat.float_leb y x = true.
Proof.
  destruct x as [a|], y as [b|]; simpl; try discriminate. intros _ _.
  destruct (Qlt_le_dec a b) as [H|H]; [left | right];
    apply Qle_bool_iff; [now apply Qlt_le_weak | exact H].
Qed.

Lemma demo_float_leb_trans (x y z : option Q) :
  DemoFloat.float_leb x y = true -> DemoFloat.float_leb y z = true ->
  DemoFloat.float_leb x z = true.
Proof.
  destruct x as [a|], y as [b|], z as [c|]; simpl; try discriminate.
  rewrite !Qle_bool_iff. apply Qle_trans.
Qed.

(** C4, the claim as stated fails, twice. On the signals
    [[5, 1, 0, 0, 5, 2, 0, 0]] and [[1, 1, 0, 0, 2, 5, 0, 0]] and the lags
    -1, 0, 1, the search returns the lag 0, whose score is NaN (the row
    [[5, 5]] has no variance), while the lag -1 scores 1: the lag returned
    does not reach the score of the lag -1. On signals of sixteen and of
    eight samples and a range that is not empty, the search returns no lag:
    it raises. *)
Lemma corrcoef_search_returns_a_nan_lag_or_raises :
  find_best_alignment_offset_with_corrcoef Demo.nan_top_leb Demo.pearson
    [5; 1; 0; 0; 5; 2; 0; 0] [1; 1; 0; 0; 2; 5; 0; 0] (- 1) 2 None = Ok 0
  /\ lag_score Demo.pearson
       [5; 1; 0; 0; 5; 2; 0; 0] [1; 1; 0; 0; 2; 5; 0; 0] 0 = None
  /\ lag_score Demo.pearson
       [5; 1; 0; 0; 5; 2; 0; 0] [1; 1; 0; 0; 2; 5; 0; 0] (- 1) = Some (1 # 1)
  /\ DemoFloat.float_leb
       (lag_score Demo.pearson
          [5; 1; 0; 0; 5; 2; 0; 0] [1; 1; 0; 0; 2; 5; 0; 0] (- 1))
       (lag_score Demo.pearson
          [5; 1; 0; 0; 5; 2; 0; 0] [1; 1; 0; 0; 2; 5; 0; 0] 0) = false
  /\ find_best_alignment_offset_with_corrcoef Demo.nan_top_leb Demo.pearson
       (data Demo.digits) (data Demo.ramp) (- 2) 2 None = Err NumpyError.
Proof.
  repeat split; vm_compute; reflexivity.
Qed.

(** The same two signals: the lag returned is the first that scores NaN. *)
Lemma corrcoef_search_returns_first_nan_or_first_maximum_witness :
  exists k,
    find_best_alignment_offset_with_corrcoef
      (argmax_leb DemoFloat.is_nan DemoFloat.float_leb) Demo.pearson
      [5; 1; 0; 0; 5; 2; 0; 0] [1; 1; 0; 0; 2; 5; 0; 0] (- 1) 2 None = Ok k
    /\ - 1 <= k < 2
    /\ DemoFloat.is_nan
         (lag_score Demo.pearson
            [5; 1; 0; 0; 5; 2; 0; 0] [1; 1; 0; 0; 2; 5; 0; 0] k) = true
    /\ forall t, - 1 <= t < k ->
         DemoFloat.is_nan
           (lag_score Demo.pearson
              [5; 1; 0; 0; 5; 2; 0; 0] [1; 1; 0; 0; 2; 5; 0; 0] t) = false.
Proof.
  destruct (corrcoef_search_returns_first_nan_or_first_maximum
              Z (option Q) Demo.pearson DemoFloat.is_nan DemoFloat.float_leb
              demo_float_leb_nan_l demo_float_leb_total demo_float_leb_trans
              [5; 1; 0; 0; 5; 2; 0; 0] [1; 1; 0; 0; 2; 5; 0; 0]
              (- 1) 2 None)
    as [coefs [k [_ [_ [Hk [Hr [Hnan _]]]]]]].
  - lia.
  - intros t _. apply rows_match_equal_length. reflexivity.
  - destruct Hnan as [Ek Hfirst].
    + exists 0. split; [lia | reflexivity].
    + exists k. auto.
Defined.


